(** * Soldier CRUD service: the data-access layer and its routes

    A shallow embedding of [services/data_loader]: the models of
    [models.py], the [DataLoader] class of [DAL.py], the routes of
    [soldiers.py] and the health endpoint of [main.py].

    The program keeps its state in two places: the attributes of the shared
    [data_loader] object (the three handles) and the collection held by the
    MongoDB deployment.  Both are threaded explicitly through a state and
    exception monad.  Logging calls have no effect on either and are left
    out. *)

From Stdlib Require Import ZArith NArith String Ascii List Lia.
From stdpp Require Import base option list gmap strings fin_maps pretty.

Open Scope string_scope.
Open Scope Z_scope.

(** ** Values and documents *)

(** The values the program reads from and writes to a document: Python
    [int], [str], [None], and the driver's [ObjectId] (twelve bytes, kept
    as the number they encode). *)
Inductive Value :=
| VInt (z : Z)
| VStr (s : string)
| VNull
| VObjectId (oid : N).

Global Instance Value_eq_dec : EqDecision Value.
Proof. solve_decision. Defined.

(** A document is a Python [dict] with string keys. *)
Abbreviation Doc := (gmap string Value).

Definition hex_digit (n : N) : ascii :=
  match n with
  | 0%N => "0" | 1%N => "1" | 2%N => "2" | 3%N => "3"
  | 4%N => "4" | 5%N => "5" | 6%N => "6" | 7%N => "7"
  | 8%N => "8" | 9%N => "9" | 10%N => "a" | 11%N => "b"
  | 12%N => "c" | 13%N => "d" | 14%N => "e" | _ => "f"
  end%char.

Fixpoint hex_digits (k : nat) (n : N) (acc : string) : string :=
  match k with
  | O => acc
  | S k' => hex_digits k' (n / 16)%N (String (hex_digit (n mod 16)%N) acc)
  end.

(** [str(ObjectId)]: twenty-four lowercase hexadecimal digits. *)
Definition str_ObjectId (oid : N) : string := hex_digits 24 oid "".

(** Python's [str] on the values above. *)
Definition str (v : Value) : string :=
  match v with
  | VInt z => pretty z
  | VStr s => s
  | VNull => "None"
  | VObjectId oid => str_ObjectId oid
  end.

(** ** Exceptions *)

(** The exception classes the program raises or catches.  In the driver
    [DuplicateKeyError] is a subclass of [PyMongoError]; in pydantic
    [ValidationError] is a subclass of [ValueError]. *)
Inductive exn :=
| PyMongoError (msg : string)
| DuplicateKeyError (msg : string)
| RuntimeError (msg : string)
| ValueError (msg : string)
| ValidationError (msg : string)
| KeyError (key : string)
| HTTPException (status_code : Z) (detail : string).

Definition is_PyMongoError (e : exn) : bool :=
  match e with PyMongoError _ | DuplicateKeyError _ => true | _ => false end.

Definition is_DuplicateKeyError (e : exn) : bool :=
  match e with DuplicateKeyError _ => true | _ => false end.

Definition is_ValueError (e : exn) : bool :=
  match e with ValueError _ | ValidationError _ => true | _ => false end.

Definition is_ValidationError (e : exn) : bool :=
  match e with ValidationError _ => true | _ => false end.

Definition is_RuntimeError (e : exn) : bool :=
  match e with RuntimeError _ => true | _ => false end.

Definition is_HTTPException (e : exn) : bool :=
  match e with HTTPException _ _ => true | _ => false end.

(** [str(e)] for an exception built from one message. *)
Definition str_exn (e : exn) : string :=
  match e with
  | PyMongoError m | DuplicateKeyError m | RuntimeError m
  | ValueError m | ValidationError m => m
  | KeyError k => "'" +:+ k +:+ "'"
  | HTTPException _ d => d
  end.

Inductive result (A : Type) :=
| Ok (a : A)
| Raise (e : exn).
Arguments Ok {A} a.
Arguments Raise {A} e.

(** ** The state *)

(** Handles of the driver.  They carry the names they were made from. *)
Record AsyncMongoClient := {
  client_uri : string;
  serverSelectionTimeoutMS : Z
}.

Record Database := {
  database_client : AsyncMongoClient;
  database_name : string
}.

Record Collection := {
  collection_database : Database;
  coll_name : string
}.

(** The attributes of a [DataLoader] object. *)
Record DataLoader := {
  mongo_uri : string;
  db_name : string;
  collection_name : string;
  client : option AsyncMongoClient;
  db : option Database;
  collection : option Collection
}.

(** [DataLoader.__init__] *)
Definition DataLoader_init (uri dbn coll : string) : DataLoader :=
  {| mongo_uri := uri; db_name := dbn; collection_name := coll;
     client := None; db := None; collection := None |}.

(** What the program asks of the driver, one entry per call. *)
Inductive Call :=
| Ping
| CreateIndex (key : string) (unique : bool)
| Find
| FindOne (key : string) (v : Value)
| InsertOne (d : Doc)
| FindOneAndUpdate (key : string) (v : Value) (set : Doc)
| DeleteOne (key : string) (v : Value)
| Close.

(** The MongoDB side, as far as this program uses it: the documents of the
    one collection in their natural order, whether the unique index on
    ["ID"] exists, and the counter behind generated [ObjectId]s.

    [script] is the environment: the outcome of each coming round trip to
    the server, [None] when the server answers and [Some msg] when the
    driver raises [PyMongoError(msg)] instead (an empty script answers
    every call).  [journal] records the calls made, oldest first.

    Integers are unbounded here; configuration is taken to be well formed,
    so building the client and looking up a handle cannot fail. *)
Record Mongo := {
  documents : list Doc;
  unique_ID : bool;
  next_oid : N;
  script : list (option string);
  journal : list Call
}.

Record Sys := {
  data_loader : DataLoader;
  mongo : Mongo
}.

(** ** The monad *)

Definition M (A : Type) : Type := Sys → result A * Sys.

Global Instance M_ret : MRet M := λ A a s, (Ok a, s).

Global Instance M_bind : MBind M := λ A B k m s,
  match m s with
  | (Ok a, s') => k a s'
  | (Raise e, s') => (Raise e, s')
  end.

Definition raise {A} (e : exn) : M A := λ s, (Raise e, s).

(** [try: body except ...]: [handlers e] is the first clause that matches
    [e], if any. *)
Definition try_except {A} (body : M A) (handlers : exn → option (M A)) : M A :=
  λ s,
    match body s with
    | (Ok a, s') => (Ok a, s')
    | (Raise e, s') =>
        match handlers e with
        | Some h => h s'
        | None => (Raise e, s')
        end
    end.

Definition get_self : M DataLoader := λ s, (Ok (data_loader s), s).

Definition set_client (c : option AsyncMongoClient) : M unit := λ s,
  let dl := data_loader s in
  (Ok tt, {| data_loader :=
               {| mongo_uri := mongo_uri dl; db_name := db_name dl;
                  collection_name := collection_name dl;
                  client := c; db := db dl; collection := collection dl |};
             mongo := mongo s |}).

Definition set_db (d : option Database) : M unit := λ s,
  let dl := data_loader s in
  (Ok tt, {| data_loader :=
               {| mongo_uri := mongo_uri dl; db_name := db_name dl;
                  collection_name := collection_name dl;
                  client := client dl; db := d; collection := collection dl |};
             mongo := mongo s |}).

Definition set_collection (c : option Collection) : M unit := λ s,
  let dl := data_loader s in
  (Ok tt, {| data_loader :=
               {| mongo_uri := mongo_uri dl; db_name := db_name dl;
                  collection_name := collection_name dl;
                  client := client dl; db := db dl; collection := c |};
             mongo := mongo s |}).

Definition get_mongo : M Mongo := λ s, (Ok (mongo s), s).

Definition put_mongo (w : Mongo) : M unit := λ s,
  (Ok tt, {| data_loader := data_loader s; mongo := w |}).

(** ** The driver *)

Definition with_documents (w : Mongo) (l : list Doc) : Mongo :=
  {| documents := l; unique_ID := unique_ID w; next_oid := next_oid w;
     script := script w; journal := journal w |}.

(** One round trip to the server: the call is recorded, the next entry of
    the script is consumed and decides whether the driver raises. *)
Definition advance (c : Call) (s : Sys) : Sys :=
  let w := mongo s in
  {| data_loader := data_loader s;
     mongo := {| documents := documents w; unique_ID := unique_ID w;
                 next_oid := next_oid w; script := tail (script w);
                 journal := journal w ++ [c] |} |}.

Definition round_trip (c : Call) : M unit := λ s,
  match script (mongo s) with
  | Some msg :: _ => (Raise (PyMongoError msg), advance c s)
  | _ => (Ok tt, advance c s)
  end.

(** [client.admin.command("ping")] *)
Definition ping : M unit := round_trip Ping.

(** [collection.create_index("ID", unique=True)]: the server refuses to
    build the index over documents that already share a value of ["ID"]
    (a missing key counts as one value). *)
Definition create_index_ID_unique : M unit :=
  round_trip (CreateIndex "ID" true);;
  w ← get_mongo;
  if bool_decide (NoDup ((λ d : Doc, d !! "ID") <$> documents w))
  then put_mongo {| documents := documents w; unique_ID := true;
                    next_oid := next_oid w; script := script w;
                    journal := journal w |}
  else raise (DuplicateKeyError "E11000 duplicate key error collection").

(** [collection.find({})], iterated to the end. *)
Definition find_all : M (list Doc) :=
  round_trip Find;;
  w ← get_mongo;
  mret (documents w).

(** [collection.find_one({key: v})]: the first match in natural order.
    The driver decodes a fresh [dict] for every call. *)
Definition find_one (key : string) (v : Value) : M (option Doc) :=
  round_trip (FindOne key v);;
  w ← get_mongo;
  mret (snd <$> list_find (λ d : Doc, d !! key = Some v) (documents w)).

(** [collection.insert_one(d)] for a document without ["_id"]: the driver
    generates the [ObjectId]; with the unique index in place the server
    rejects a document whose ["ID"] is already taken.  Returns
    [inserted_id]. *)
Definition insert_one (d : Doc) : M Value :=
  round_trip (InsertOne d);;
  w ← get_mongo;
  if unique_ID w && bool_decide (Exists (λ d' : Doc, d' !! "ID" = d !! "ID") (documents w))
  then raise (DuplicateKeyError "E11000 duplicate key error collection")
  else
    let oid := VObjectId (next_oid w) in
    put_mongo {| documents := documents w ++ [<["_id" := oid]> d];
                 unique_ID := unique_ID w;
                 next_oid := N.succ (next_oid w);
                 script := script w; journal := journal w |};;
    mret oid.

(** [collection.find_one_and_update({key: v}, {"$set": set},
    return_document=True)]: the first match is patched in place and its
    post-image returned.  The patches this program sends never name
    ["_id"] or ["ID"] (see [update_data_keys]), so the checks a server
    makes on those keys are not part of the model. *)
Definition find_one_and_update (key : string) (v : Value) (set : Doc) : M (option Doc) :=
  round_trip (FindOneAndUpdate key v set);;
  w ← get_mongo;
  match list_find (λ d : Doc, d !! key = Some v) (documents w) with
  | Some (i, d) =>
      put_mongo (with_documents w (<[i := set ∪ d]> (documents w)));;
      mret (Some (set ∪ d))
  | None => mret None
  end.

(** [collection.delete_one({key: v})]; returns [deleted_count]. *)
Definition delete_one (key : string) (v : Value) : M Z :=
  round_trip (DeleteOne key v);;
  w ← get_mongo;
  match list_find (λ d : Doc, d !! key = Some v) (documents w) with
  | Some (i, _) =>
      put_mongo (with_documents w (delete i (documents w)));;
      mret 1
  | None => mret 0
  end.

(** [client.close()]: the call is recorded and nothing else; a driver that
    refuses later calls on a closed client is a script of faults. *)
Definition close : M unit := λ s,
  let w := mongo s in
  (Ok tt, {| data_loader := data_loader s;
             mongo := {| documents := documents w; unique_ID := unique_ID w;
                         next_oid := next_oid w; script := script w;
                         journal := journal w ++ [Close] |} |}).

(** ** models.py *)

(** [SoldierCreate]: the four fields of [SoldierBase] and the numeric [ID],
    all required. *)
Module SoldierCreate.
Record t := {
  first_name : string;
  last_name : string;
  phone_number : Z;
  rank : string;
  ID : Z
}.

(** [item.model_dump()] *)
Definition model_dump (item : t) : Doc :=
  <["first_name" := VStr (first_name item)]>
    (<["last_name" := VStr (last_name item)]>
       (<["phone_number" := VInt (phone_number item)]>
          (<["rank" := VStr (rank item)]>
             (<["ID" := VInt (ID item)]> ∅)))).
End SoldierCreate.

(** [SoldierUpdate]: every field is [Optional] with default [None];
    pydantic remembers in [model_fields_set] which fields the request
    supplied, so a supplied [null] differs from an omitted field. *)
Module SoldierUpdate.
Record t := {
  first_name : option string;
  last_name : option string;
  phone_number : option Z;
  rank : option string;
  model_fields_set : gset string
}.

Definition dump_str (o : option string) : Value :=
  match o with Some s => VStr s | None => VNull end.

Definition dump_int (o : option Z) : Value :=
  match o with Some z => VInt z | None => VNull end.



(** One field of the dump: present only when it was set. *)
Definition dump_field (u : t) (key : string) (v : Value) (acc : Doc) : Doc :=
  if bool_decide (key ∈ model_fields_set u) then <[key := v]> acc else acc.

(** [item_update.model_dump(exclude_unset=True)] *)
Definition model_dump_exclude_unset (u : t) : Doc :=
  dump_field u "first_name" (dump_str (first_name u))
    (dump_field u "last_name" (dump_str (last_name u))
       (dump_field u "phone_number" (dump_int (phone_number u))
          (dump_field u "rank" (dump_str (rank u)) ∅))).
End SoldierUpdate.

(** ** DAL.py: class [DataLoader] *)

Definition not_available : string := "Database connection is not available.".

Definition operation_failed (e : exn) : string :=
  "Database operation failed: " +:+ str_exn e.

(** The clause [except PyMongoError as e: raise RuntimeError(...)] that
    closes every operation. *)
Definition except_PyMongoError {A} (e : exn) : option (M A) :=
  if is_PyMongoError e then Some (raise (RuntimeError (operation_failed e)))
  else None.

(** [item["_id"] = str(item["_id"])] *)
Definition stringify_id (item : Doc) : M Doc :=
  match item !! "_id" with
  | Some v => mret (<["_id" := VStr (str v)]> item)
  | None => raise (KeyError "_id")
  end.

(** The block [if item: item["_id"] = str(item["_id"])] on an optional
    document; an empty [dict] is falsy like [None]. *)
Definition if_item_stringify_id (item : option Doc) : M (option Doc) :=
  match item with
  | Some d =>
      if bool_decide (d ≠ ∅) then d' ← stringify_id d; mret (Some d')
      else mret (Some d)
  | None => mret None
  end.

(** [_setup_indexes] *)
Definition _setup_indexes : M unit :=
  self ← get_self;
  match collection self with
  | Some _ =>
      try_except create_index_ID_unique
        (λ e, if is_PyMongoError e then Some (mret tt) else None)
  | None => mret tt
  end.

(** [connect] *)
Definition connect : M unit :=
  try_except
    (self ← get_self;
     let c := {| client_uri := mongo_uri self; serverSelectionTimeoutMS := 5000 |} in
     set_client (Some c);;
     ping;;
     let d := {| database_client := c; database_name := db_name self |} in
     set_db (Some d);;
     set_collection (Some {| collection_database := d;
                             coll_name := collection_name self |});;
     _setup_indexes)
    (λ e, if is_PyMongoError e
          then Some (set_client None;; set_db None;; set_collection None)
          else None).

(** [disconnect] *)
Definition disconnect : M unit :=
  self ← get_self;
  match client self with
  | Some _ => close
  | None => mret tt
  end.

Fixpoint stringify_ids (cursor : list Doc) : M (list Doc) :=
  match cursor with
  | [] => mret []
  | item :: rest =>
      item' ← stringify_id item;
      items ← stringify_ids rest;
      mret (item' :: items)
  end.

(** [get_all_data] *)
Definition get_all_data : M (list Doc) :=
  self ← get_self;
  match collection self with
  | None => raise (RuntimeError not_available)
  | Some _ =>
      try_except
        (cursor ← find_all;
         stringify_ids cursor)
        except_PyMongoError
  end.

(** [get_item_by_id] *)
Definition get_item_by_id (item_id : Z) : M (option Doc) :=
  self ← get_self;
  match collection self with
  | None => raise (RuntimeError not_available)
  | Some _ =>
      try_except
        (item ← find_one "ID" (VInt item_id);
         if_item_stringify_id item)
        except_PyMongoError
  end.

(** [create_item] *)
Definition create_item (item : SoldierCreate.t) : M (option Doc) :=
  self ← get_self;
  match collection self with
  | None => raise (RuntimeError not_available)
  | Some _ =>
      try_except
        (let item_dict := SoldierCreate.model_dump item in
         inserted_id ← insert_one item_dict;
         created_item ← find_one "_id" inserted_id;
         if_item_stringify_id created_item)
        (λ e,
           if is_DuplicateKeyError e
           then Some (raise (ValueError
                  ("Item with ID " +:+ pretty (SoldierCreate.ID item) +:+ " already exists.")))
           else except_PyMongoError e)
  end.

(** [update_item] *)
Definition update_item (item_id : Z) (item_update : SoldierUpdate.t) : M (option Doc) :=
  self ← get_self;
  match collection self with
  | None => raise (RuntimeError not_available)
  | Some _ =>
      try_except
        (let update_data := SoldierUpdate.model_dump_exclude_unset item_update in
         if bool_decide (update_data = ∅) then get_item_by_id item_id
         else
           result ← find_one_and_update "ID" (VInt item_id) update_data;
           if_item_stringify_id result)
        except_PyMongoError
  end.

(** [delete_item] *)
Definition delete_item (item_id : Z) : M bool :=
  self ← get_self;
  match collection self with
  | None => raise (RuntimeError not_available)
  | Some _ =>
      try_except
        (deleted_count ← delete_one "ID" (VInt item_id);
         mret (bool_decide (deleted_count > 0)%Z))
        except_PyMongoError
  end.

(** ** soldiers.py: the routes under [/soldiersdb] *)

(** A route either returns its value or raises; FastAPI answers an
    [HTTPException] with its status code and detail, and a returned value
    with the status code of the decorator.  Serialisation of a returned
    value through [response_model] is outside this model. *)
Definition http_status {A} (success : Z) (r : result A) : Z :=
  match r with
  | Ok _ => success
  | Raise (HTTPException code _) => code
  | Raise _ => 500
  end.

Definition unexpected : exn := HTTPException 500 "An unexpected error occurred".

(** [validate_soldier_id] *)
Definition validate_soldier_id (soldier_id : Z) : M unit :=
  if bool_decide (soldier_id ≤ 0)%Z
  then raise (HTTPException 422 "Soldier ID must be a positive integer")
  else mret tt.

(** [POST /]: [create_soldier] *)
Definition create_soldier (soldier : SoldierCreate.t) : M (option Doc) :=
  try_except
    (created_soldier ← create_item soldier;
     mret created_soldier)
    (λ e,
       if is_ValueError e then Some (raise (HTTPException 409 (str_exn e)))
       else if is_RuntimeError e then Some (raise (HTTPException 503 (str_exn e)))
       else if is_ValidationError e then Some (raise (HTTPException 422 (str_exn e)))
       else Some (raise unexpected)).

(** [GET /]: [read_all_soldiers] *)
Definition read_all_soldiers : M (list Doc) :=
  try_except
    (soldiers ← get_all_data;
     mret soldiers)
    (λ e,
       if is_RuntimeError e then Some (raise (HTTPException 503 (str_exn e)))
       else Some (raise unexpected)).

(** [GET /{soldier_id}]: [read_soldier_by_id] *)
Definition read_soldier_by_id (soldier_id : Z) : M Doc :=
  validate_soldier_id soldier_id;;
  try_except
    (soldier ← get_item_by_id soldier_id;
     match soldier with
     | None =>
         raise (HTTPException 404
                  ("Soldier with ID " +:+ pretty soldier_id +:+ " not found"))
     | Some d => mret d
     end)
    (λ e,
       if is_HTTPException e then Some (raise e)
       else if is_RuntimeError e then Some (raise (HTTPException 503 (str_exn e)))
       else Some (raise unexpected)).

(** [PUT /{soldier_id}]: [update_soldier] *)
Definition update_soldier (soldier_id : Z) (soldier_update : SoldierUpdate.t) : M Doc :=
  validate_soldier_id soldier_id;;
  try_except
    (updated_soldier ← update_item soldier_id soldier_update;
     match updated_soldier with
     | None =>
         raise (HTTPException 404
                  ("Soldier with ID " +:+ pretty soldier_id +:+ " not found to update"))
     | Some d => mret d
     end)
    (λ e,
       if is_HTTPException e then Some (raise e)
       else if is_ValidationError e then Some (raise (HTTPException 422 (str_exn e)))
       else if is_RuntimeError e then Some (raise (HTTPException 503 (str_exn e)))
       else Some (raise unexpected)).

(** [DELETE /{soldier_id}]: [delete_soldier] *)
Definition delete_soldier (soldier_id : Z) : M unit :=
  validate_soldier_id soldier_id;;
  try_except
    (success ← delete_item soldier_id;
     if negb success
     then raise (HTTPException 404
                   ("Soldier with ID " +:+ pretty soldier_id +:+ " not found to delete"))
     else mret tt)
    (λ e,
       if is_HTTPException e then Some (raise e)
       else if is_RuntimeError e then Some (raise (HTTPException 503 (str_exn e)))
       else Some (raise unexpected)).

(** ** main.py *)

(** [GET /health]: [detailed_health_check] *)
Definition detailed_health_check : M (gmap string string) :=
  self ← get_self;
  let db_status :=
    match collection self with Some _ => "connected" | None => "disconnected" end in
  if bool_decide (db_status = "disconnected")
  then raise (HTTPException 503 "Database not available")
  else mret (<["status" := "ok"]>
               (<["service" := "FastAPI MongoDB CRUD Service"]>
                  (<["version" := "2.0"]>
                     (<["database_status" := db_status]> ∅)))).

(** ** Concrete states used by the examples *)

(** The object built in [dependencies.py] with the default environment,
    in front of an empty collection whose server answers every call. *)
Definition data_loader0 : DataLoader :=
  DataLoader_init "mongodb://localhost:27017/" "mydatabase" "data".

Definition mongo0 : Mongo :=
  {| documents := []; unique_ID := false; next_oid := 0%N;
     script := []; journal := [] |}.

Definition sys0 : Sys := {| data_loader := data_loader0; mongo := mongo0 |}.

Definition with_script (s : Sys) (sc : list (option string)) : Sys :=
  {| data_loader := data_loader s;
     mongo := {| documents := documents (mongo s); unique_ID := unique_ID (mongo s);
                 next_oid := next_oid (mongo s); script := sc;
                 journal := journal (mongo s) |} |}.

Definition soldier7 : SoldierCreate.t :=
  {| SoldierCreate.first_name := "A"; SoldierCreate.last_name := "B";
     SoldierCreate.phone_number := 1234567; SoldierCreate.rank := "Cpl";
     SoldierCreate.ID := 7 |}.

Definition run {A} (m : M A) (s : Sys) : Sys := snd (m s).
Definition outcome {A} (m : M A) (s : Sys) : result A := fst (m s).

(** The server answers the next [n] round trips. *)
Definition answers (n : nat) (s : Sys) : bool :=
  forallb (λ o : option string, bool_decide (o = None)) (take n (script (mongo s))).

(** The first document matching [{"ID": item_id}], with its position. *)
Definition lookup_ID (item_id : Z) (s : Sys) : option (nat * Doc) :=
  list_find (λ d : Doc, d !! "ID" = Some (VInt item_id)) (documents (mongo s)).

(** The state [s] with the documents of its collection replaced. *)
Definition set_documents (l : list Doc) (s : Sys) : Sys :=
  {| data_loader := data_loader s; mongo := with_documents (mongo s) l |}.

(** The state right after the server accepted [insert_one(d)]. *)
Definition inserted (d : Doc) (s : Sys) : Sys :=
  let w := mongo s in
  {| data_loader := data_loader s;
     mongo := {| documents := documents w ++ [<["_id" := VObjectId (next_oid w)]> d];
                 unique_ID := unique_ID w;
                 next_oid := N.succ (next_oid w);
                 script := script w; journal := journal w |} |}.

(** [item] as [get_item_by_id] and its siblings hand it out: the ["_id"]
    replaced by its string form, [KeyError] when there is none. *)
Definition stringified (d : Doc) : result (option Doc) :=
  match d !! "_id" with
  | Some v => Ok (Some (<["_id" := VStr (str v)]> d))
  | None => Raise (KeyError "_id")
  end.

(** A few states reached from [sys0], and a few requests. *)
Definition soldier0 : SoldierCreate.t :=
  {| SoldierCreate.first_name := "Z"; SoldierCreate.last_name := "Y";
     SoldierCreate.phone_number := 5550000; SoldierCreate.rank := "Pvt";
     SoldierCreate.ID := 0 |}.

Definition sys_connected : Sys := run connect sys0.

Definition sys_with7 : Sys := run (create_item soldier7) sys_connected.

Definition sys_with0 : Sys := run (create_item soldier0) sys_connected.


(** The ping fails during [connect]. *)
Definition sys_ping_failed : Sys :=
  run connect (with_script sys0 [Some "server selection timed out"]).

(** Body [{}]. *)
Definition no_fields : SoldierUpdate.t :=
  {| SoldierUpdate.first_name := None; SoldierUpdate.last_name := None;
     SoldierUpdate.phone_number := None; SoldierUpdate.rank := None;
     SoldierUpdate.model_fields_set := ∅ |}.

(** Body [{"rank": "Sgt"}]. *)
Definition rank_Sgt : SoldierUpdate.t :=
  {| SoldierUpdate.first_name := None; SoldierUpdate.last_name := None;
     SoldierUpdate.phone_number := None; SoldierUpdate.rank := Some "Sgt";
     SoldierUpdate.model_fields_set := {["rank"]} |}.





(** The record a created soldier is read back as. *)
Definition record_of (item : SoldierCreate.t) (oid : N) : Doc :=
  <["_id" := VStr (str_ObjectId oid)]> (SoldierCreate.model_dump item).



(** Every exception [m] can raise satisfies [P]. *)
Definition raises_only {A} (P : exn → Prop) (m : M A) : Prop :=
  ∀ s e s', m s = (Raise e, s') → P e.



(** What the driver and the [dict] accesses raise. *)
Definition from_below (e : exn) : Prop :=
  is_PyMongoError e = true ∨ ∃ k, e = KeyError k.

(** ** Relations between the state before and after an operation *)

(** Every final state of [m] is related to its initial state by [R]. *)
Definition preserves {A} (R : Sys → Sys → Prop) (m : M A) : Prop :=
  ∀ s r s', m s = (r, s') → R s s'.

(** The attributes of the loader are as before. *)
Definition same_loader (s s' : Sys) : Prop := data_loader s' = data_loader s.

(** The collection, its index and the [ObjectId] counter are as before. *)
Definition same_store (s s' : Sys) : Prop :=
  documents (mongo s') = documents (mongo s)
  ∧ unique_ID (mongo s') = unique_ID (mongo s)
  ∧ next_oid (mongo s') = next_oid (mongo s).

(** With the unique index in place no two documents share a value of
    ["ID"]. *)
Definition ids_unique (s : Sys) : Prop :=
  unique_ID (mongo s) = true → NoDup ((λ d : Doc, d !! "ID") <$> documents (mongo s)).

Definition keeps_ids_unique (s s' : Sys) : Prop := ids_unique s → ids_unique s'.

(** Every document carries an [ObjectId] that the counter has passed. *)
Definition oid_below (n : N) (d : Doc) : bool :=
  match d !! "_id" with
  | Some (VObjectId oid) => bool_decide (oid < n)%N
  | _ => false
  end.

Definition well_formed (s : Sys) : bool :=
  forallb (oid_below (next_oid (mongo s))) (documents (mongo s)).

Definition keeps_well_formed (s s' : Sys) : Prop :=
  well_formed s = true → well_formed s' = true.

(** A document with its ["_id"] in string form. *)
Definition with_str_id (d : Doc) : Doc :=
  match d !! "_id" with
  | Some v => <["_id" := VStr (str v)]> d
  | None => d
  end.

(** Both invariants of the collection survive the step. *)
Definition keeps_invariants (s s' : Sys) : Prop :=
  keeps_ids_unique s s' ∧ keeps_well_formed s s'.

(** ** main.py: the lifespan of the application *)

(** The part of [lifespan] before [yield]: whatever [connect] raises is
    logged and dropped. *)
Definition lifespan_startup : M unit :=
  try_except connect (λ e, Some (mret tt)).

(** The part of [lifespan] after [yield]. *)
Definition lifespan_shutdown : M unit :=
  try_except disconnect (λ e, Some (mret tt)).

(** What the application is asked to do: the two lifespan events and one
    request per route. *)
Inductive Request :=
| Startup
| Shutdown
| PostSoldier (soldier : SoldierCreate.t)
| GetSoldiers
| GetSoldier (soldier_id : Z)
| PutSoldier (soldier_id : Z) (soldier_update : SoldierUpdate.t)
| DeleteSoldier (soldier_id : Z)
| GetHealth.

(** The state after the application has dealt with [q], run to its end. *)
Definition serve (q : Request) (s : Sys) : Sys :=
  match q with
  | Startup => run lifespan_startup s
  | Shutdown => run lifespan_shutdown s
  | PostSoldier soldier => run (create_soldier soldier) s
  | GetSoldiers => run read_all_soldiers s
  | GetSoldier soldier_id => run (read_soldier_by_id soldier_id) s
  | PutSoldier soldier_id soldier_update => run (update_soldier soldier_id soldier_update) s
  | DeleteSoldier soldier_id => run (delete_soldier soldier_id) s
  | GetHealth => run detailed_health_check s
  end.

(** Requests dealt with one after the other, oldest first. *)
Definition serve_all (qs : list Request) (s : Sys) : Sys :=
  foldl (λ s q, serve q s) s qs.

(** A short day of the service, from a cold start. *)
Definition requests0 : list Request :=
  [Startup; PostSoldier soldier7; PostSoldier soldier7; PutSoldier 7 rank_Sgt;
   GetSoldiers; DeleteSoldier 8; Shutdown].

(** ** Classes of exceptions and of answers *)

(** What an operation of the loader lets out: its own [RuntimeError], a
    [KeyError] of a [dict] access and, for [create_item], [ValueError]. *)
Definition loader_raises (value : bool) (e : exn) : Prop :=
  (∃ m, e = RuntimeError m) ∨ (∃ k, e = KeyError k)
  ∨ (value = true ∧ ∃ m, e = ValueError m).

(** What the body of a route lets out: the above, and its own 404 when
    [not_found] is set. *)
Definition body_raises (value not_found : bool) (e : exn) : Prop :=
  loader_raises value e ∨ (not_found = true ∧ ∃ d, e = HTTPException 404 d).

(** An [HTTPException] with one of the given status codes. *)
Definition http_in (codes : list Z) (e : exn) : Prop :=
  ∃ code detail, e = HTTPException code detail ∧ code ∈ codes.

(** The route returned, or raised an [HTTPException] with one of the given
    status codes. *)
Definition answers_with {A} (codes : list Z) (r : result A) : Prop :=
  match r with
  | Ok _ => True
  | Raise e => http_in codes e
  end.

(** * Properties *)

(** ** The monad and the driver *)

Ltac unfold_monad :=
  unfold mbind, M_bind, mret, M_ret, raise, try_except, get_self, get_mongo,
    put_mongo, set_client, set_db, set_collection in *.

Lemma answers_head (n : nat) (s : Sys) :
  answers (S n) s = true →
  (script (mongo s) = [] ∨ ∃ sc, script (mongo s) = None :: sc).
Proof.
  unfold answers. destruct (script (mongo s)) as [|[m|] sc]; simpl; eauto.
  discriminate.
Qed.

Lemma answers_advance (n : nat) (c : Call) (s : Sys) :
  answers (S n) s = true → answers n (advance c s) = true.
Proof.
  unfold answers, advance. simpl.
  destruct (script (mongo s)) as [|o sc]; simpl.
  - by destruct n.
  - by intros [_ ?]%andb_prop.
Qed.


Lemma round_trip_answers (c : Call) (s : Sys) :
  answers 1 s = true → round_trip c s = (Ok tt, advance c s).
Proof.
  intros [E | [sc E]]%answers_head; unfold round_trip; by rewrite E.
Qed.

Lemma round_trip_fault (c : Call) (s : Sys) (msg : string) (sc : list (option string)) :
  script (mongo s) = Some msg :: sc →
  round_trip c s = (Raise (PyMongoError msg), advance c s).
Proof. intros E. unfold round_trip. by rewrite E. Qed.

Lemma operation_failed_ne (e : exn) : operation_failed e ≠ not_available.
Proof. unfold operation_failed, not_available. cbv [String.append]. intros H. inversion H. Qed.

(** ** The connection gate *)

Section Disconnected.
Variable s : Sys.
Hypothesis no_handle : collection (data_loader s) = None.

Lemma get_all_data_unavailable :
  get_all_data s = (Raise (RuntimeError not_available), s).
Proof. unfold get_all_data. unfold_monad. by rewrite no_handle. Qed.

Lemma get_item_by_id_unavailable (item_id : Z) :
  get_item_by_id item_id s = (Raise (RuntimeError not_available), s).
Proof. unfold get_item_by_id. unfold_monad. by rewrite no_handle. Qed.

Lemma create_item_unavailable (item : SoldierCreate.t) :
  create_item item s = (Raise (RuntimeError not_available), s).
Proof. unfold create_item. unfold_monad. by rewrite no_handle. Qed.

Lemma update_item_unavailable (item_id : Z) (item_update : SoldierUpdate.t) :
  update_item item_id item_update s = (Raise (RuntimeError not_available), s).
Proof. unfold update_item. unfold_monad. by rewrite no_handle. Qed.

Lemma delete_item_unavailable (item_id : Z) :
  delete_item item_id s = (Raise (RuntimeError not_available), s).
Proof. unfold delete_item. unfold_monad. by rewrite no_handle. Qed.
End Disconnected.

Lemma validate_soldier_id_positive (soldier_id : Z) (s : Sys) :
  0 < soldier_id → validate_soldier_id soldier_id s = (Ok tt, s).
Proof.
  intros H. unfold validate_soldier_id.
  rewrite bool_decide_eq_false_2; [done | lia].
Qed.

Lemma validate_soldier_id_rejects (soldier_id : Z) (s : Sys) :
  soldier_id ≤ 0 →
  validate_soldier_id soldier_id s =
    (Raise (HTTPException 422 "Soldier ID must be a positive integer"), s).
Proof.
  intros H. unfold validate_soldier_id. by rewrite bool_decide_eq_true_2.
Qed.

(** C2: without a collection handle each of the five operations of
    [DataLoader] raises [RuntimeError("Database connection is not
    available.")] and leaves the whole state as it was: no call reaches the
    driver.  The routes turn that error into status 503 with the same
    detail; the id-keyed routes do so whenever they reach the operation,
    that is for a positive path id.  [GET /health] raises 503 in that
    state. *)
Theorem disconnected_is_unavailable (s : Sys) :
  collection (data_loader s) = None →
  (get_all_data s = (Raise (RuntimeError not_available), s)
   ∧ (∀ item_id, get_item_by_id item_id s = (Raise (RuntimeError not_available), s))
   ∧ (∀ item, create_item item s = (Raise (RuntimeError not_available), s))
   ∧ (∀ item_id item_update,
        update_item item_id item_update s = (Raise (RuntimeError not_available), s))
   ∧ (∀ item_id, delete_item item_id s = (Raise (RuntimeError not_available), s)))
  ∧ (read_all_soldiers s = (Raise (HTTPException 503 not_available), s)
     ∧ (∀ soldier, create_soldier soldier s = (Raise (HTTPException 503 not_available), s))
     ∧ (∀ soldier_id, 0 < soldier_id →
          read_soldier_by_id soldier_id s = (Raise (HTTPException 503 not_available), s))
     ∧ (∀ soldier_id soldier_update, 0 < soldier_id →
          update_soldier soldier_id soldier_update s
          = (Raise (HTTPException 503 not_available), s))
     ∧ (∀ soldier_id, 0 < soldier_id →
          delete_soldier soldier_id s = (Raise (HTTPException 503 not_available), s)))
  ∧ detailed_health_check s = (Raise (HTTPException 503 "Database not available"), s).
Proof.
  intros Hnone. split; [|split].
  - repeat split; intros.
    + by apply get_all_data_unavailable.
    + by apply get_item_by_id_unavailable.
    + by apply create_item_unavailable.
    + by apply update_item_unavailable.
    + by apply delete_item_unavailable.
  - repeat split; intros.
    + unfold read_all_soldiers, try_except, mbind, M_bind.
      by rewrite get_all_data_unavailable.
    + unfold create_soldier, try_except, mbind, M_bind.
      by rewrite create_item_unavailable.
    + unfold read_soldier_by_id, try_except, mbind, M_bind.
      rewrite validate_soldier_id_positive by done.
      by rewrite get_item_by_id_unavailable.
    + unfold update_soldier, try_except, mbind, M_bind.
      rewrite validate_soldier_id_positive by done.
      by rewrite update_item_unavailable.
    + unfold delete_soldier, try_except, mbind, M_bind.
      rewrite validate_soldier_id_positive by done.
      by rewrite delete_item_unavailable.
  - unfold detailed_health_check. unfold_monad. by rewrite Hnone.
Qed.

Lemma disconnected_is_unavailable_witness :
  collection (data_loader sys0) = None
  ∧ get_item_by_id 7 sys0 = (Raise (RuntimeError not_available), sys0)
  ∧ http_status 200 (outcome (read_soldier_by_id 7) sys0) = 503
  ∧ http_status 200 (outcome detailed_health_check sys0) = 503.
Proof.
  split; [reflexivity|].
  destruct (disconnected_is_unavailable sys0) as ((_ & Hget & _) & (_ & _ & Hread & _) & Hh);
    [reflexivity|].
  split; [apply Hget|].
  unfold outcome. rewrite Hread by lia. rewrite Hh. split; reflexivity.
Defined.

(** C7: on [GET /{id}], [PUT /{id}] and [DELETE /{id}] a path id that is
    not positive raises 422 with detail "Soldier ID must be a positive
    integer", whatever the state: connected or not, record present or not.
    The state is returned as it was, so neither the loader nor the driver
    was reached. *)
Theorem nonpositive_path_id_is_rejected
    (soldier_id : Z) (soldier_update : SoldierUpdate.t) (s : Sys) :
  soldier_id ≤ 0 →
  read_soldier_by_id soldier_id s
  = (Raise (HTTPException 422 "Soldier ID must be a positive integer"), s)
  ∧ update_soldier soldier_id soldier_update s
    = (Raise (HTTPException 422 "Soldier ID must be a positive integer"), s)
  ∧ delete_soldier soldier_id s
    = (Raise (HTTPException 422 "Soldier ID must be a positive integer"), s).
Proof.
  intros H.
  unfold read_soldier_by_id, update_soldier, delete_soldier, mbind, M_bind.
  by rewrite !validate_soldier_id_rejects.
Qed.

Lemma nonpositive_path_id_is_rejected_witness :
  0 ≤ 0
  ∧ is_Some (lookup_ID 0 sys_with0)
  ∧ read_soldier_by_id 0 sys_with0
    = (Raise (HTTPException 422 "Soldier ID must be a positive integer"), sys_with0).
Proof.
  split; [lia|]. split; [apply (bool_decide_unpack _); vm_compute; exact I|].
  apply (nonpositive_path_id_is_rejected 0 no_fields sys_with0). lia.
Defined.

(** ** The driver when the server answers, and when it does not *)

Lemma lookup_ID_None (item_id : Z) (s : Sys) :
  lookup_ID item_id s = None
  ↔ ∀ d : Doc, d ∈ documents (mongo s) → d !! "ID" ≠ Some (VInt item_id).
Proof. unfold lookup_ID. rewrite list_find_None, Forall_forall. done. Qed.

Lemma lookup_ID_Some (item_id : Z) (s : Sys) (i : nat) (d : Doc) :
  lookup_ID item_id s = Some (i, d) →
  documents (mongo s) !! i = Some d ∧ d !! "ID" = Some (VInt item_id).
Proof. unfold lookup_ID. intros (? & ? & _)%list_find_Some. done. Qed.

Lemma find_all_answers (s : Sys) :
  answers 1 s = true →
  find_all s = (Ok (documents (mongo s)), advance Find s).
Proof.
  intros H. unfold find_all, mbind, M_bind. by rewrite round_trip_answers.
Qed.

Lemma find_one_answers (key : string) (v : Value) (s : Sys) :
  answers 1 s = true →
  find_one key v s
  = (Ok (snd <$> list_find (λ d : Doc, d !! key = Some v) (documents (mongo s))),
     advance (FindOne key v) s).
Proof.
  intros H. unfold find_one, mbind, M_bind. by rewrite round_trip_answers.
Qed.

Lemma find_one_and_update_answers (key : string) (v : Value) (set : Doc) (s : Sys) :
  answers 1 s = true →
  find_one_and_update key v set s
  = match list_find (λ d : Doc, d !! key = Some v) (documents (mongo s)) with
    | Some (i, d) =>
        (Ok (Some (set ∪ d)),
         set_documents (<[i := set ∪ d]> (documents (mongo s)))
           (advance (FindOneAndUpdate key v set) s))
    | None => (Ok None, advance (FindOneAndUpdate key v set) s)
    end.
Proof.
  intros H. unfold find_one_and_update, mbind, M_bind.
  rewrite round_trip_answers by done. unfold get_mongo. simpl.
  by destruct (list_find _ _) as [[i d]|].
Qed.

Lemma delete_one_answers (key : string) (v : Value) (s : Sys) :
  answers 1 s = true →
  delete_one key v s
  = match list_find (λ d : Doc, d !! key = Some v) (documents (mongo s)) with
    | Some (i, _) =>
        (Ok 1, set_documents (delete i (documents (mongo s)))
                 (advance (DeleteOne key v) s))
    | None => (Ok 0, advance (DeleteOne key v) s)
    end.
Proof.
  intros H. unfold delete_one, mbind, M_bind.
  rewrite round_trip_answers by done. unfold get_mongo. simpl.
  by destruct (list_find _ _) as [[i d]|].
Qed.

(** ** What [model_dump] can contain *)

Lemma update_data_keys (u : SoldierUpdate.t) (k : string) :
  is_Some (SoldierUpdate.model_dump_exclude_unset u !! k) →
  k ∈ ["first_name"; "last_name"; "phone_number"; "rank"].
Proof.
  unfold SoldierUpdate.model_dump_exclude_unset, SoldierUpdate.dump_field.
  intros [v Hv].
  repeat case_bool_decide;
    repeat (rewrite lookup_insert in Hv; case_decide; [subst k; set_solver|]);
    by rewrite lookup_empty in Hv.
Qed.

Lemma update_data_not_ID (u : SoldierUpdate.t) :
  SoldierUpdate.model_dump_exclude_unset u !! "ID" = None.
Proof.
  destruct (SoldierUpdate.model_dump_exclude_unset u !! "ID") as [v|] eqn:E; [|done].
  assert (H : "ID" ∈ ["first_name"; "last_name"; "phone_number"; "rank"])
    by (apply (update_data_keys u); eauto).
  by repeat (apply elem_of_cons in H as [H|H]; [discriminate|]); apply elem_of_nil in H.
Qed.

Lemma update_data_not__id (u : SoldierUpdate.t) :
  SoldierUpdate.model_dump_exclude_unset u !! "_id" = None.
Proof.
  destruct (SoldierUpdate.model_dump_exclude_unset u !! "_id") as [v|] eqn:E; [|done].
  assert (H : "_id" ∈ ["first_name"; "last_name"; "phone_number"; "rank"])
    by (apply (update_data_keys u); eauto).
  by repeat (apply elem_of_cons in H as [H|H]; [discriminate|]); apply elem_of_nil in H.
Qed.

(** ** The operations behind the gate *)

Lemma try_except_PyMongoError_caught {A} (body : M A) (s s' : Sys) (e : exn) :
  try_except body except_PyMongoError s = (Raise e, s') → is_PyMongoError e = false.
Proof.
  unfold try_except, except_PyMongoError, raise.
  destruct (body s) as [[a|e0] s0]; [discriminate|].
  destruct (is_PyMongoError e0) eqn:E; intros [= <- <-]; done.
Qed.

Lemma if_item_stringify_id_Some (d : Doc) (s : Sys) :
  d ≠ ∅ → if_item_stringify_id (Some d) s = (stringified d, s).
Proof.
  intros Hd. unfold if_item_stringify_id, stringify_id, stringified.
  rewrite bool_decide_eq_true_2 by done.
  unfold_monad. by destruct (d !! "_id").
Qed.

Lemma lookup_Some_nonempty (d : Doc) (k : string) (v : Value) :
  d !! k = Some v → d ≠ ∅.
Proof. intros H ->. by rewrite lookup_empty in H. Qed.

Section Connected.
Variable s : Sys.
Hypothesis handle : collection (data_loader s) ≠ None.

Lemma get_item_by_id_answers (item_id : Z) :
  answers 1 s = true →
  get_item_by_id item_id s
  = (match lookup_ID item_id s with
     | Some (_, d) => stringified d
     | None => Ok None
     end, advance (FindOne "ID" (VInt item_id)) s).
Proof.
  intros H. unfold get_item_by_id. unfold_monad.
  destruct (collection (data_loader s)); [|done].
  rewrite find_one_answers by done. unfold lookup_ID.
  destruct (list_find _ _) as [[i d]|] eqn:E;
    cbn [fmap option_fmap option_map snd]; [|done].
  apply list_find_Some in E as (_ & Hd & _).
  rewrite if_item_stringify_id_Some by (by eapply lookup_Some_nonempty).
  unfold stringified. by destruct (d !! "_id").
Qed.


Lemma update_item_answers (item_id : Z) (item_update : SoldierUpdate.t) :
  SoldierUpdate.model_dump_exclude_unset item_update ≠ ∅ →
  answers 1 s = true →
  let update_data := SoldierUpdate.model_dump_exclude_unset item_update in
  update_item item_id item_update s
  = match lookup_ID item_id s with
    | Some (i, d) =>
        (stringified (update_data ∪ d),
         set_documents (<[i := update_data ∪ d]> (documents (mongo s)))
           (advance (FindOneAndUpdate "ID" (VInt item_id) update_data) s))
    | None => (Ok None, advance (FindOneAndUpdate "ID" (VInt item_id) update_data) s)
    end.
Proof.
  intros Hne H upd. unfold update_item. unfold_monad.
  destruct (collection (data_loader s)); [|done].
  rewrite bool_decide_eq_false_2 by done.
  rewrite find_one_and_update_answers by done. unfold lookup_ID. fold upd.
  destruct (list_find _ _) as [[i d]|] eqn:E; [|done].
  rewrite if_item_stringify_id_Some.
  - unfold stringified. by destruct ((upd ∪ d) !! "_id").
  - intros Hu. apply Hne. fold upd. apply map_eq. intros k.
    rewrite lookup_empty. apply (f_equal (.!! k)) in Hu.
    rewrite lookup_empty in Hu. by apply lookup_union_None in Hu as [? _].
Qed.

Lemma delete_item_answers (item_id : Z) :
  answers 1 s = true →
  delete_item item_id s
  = match lookup_ID item_id s with
    | Some (i, _) =>
        (Ok true, set_documents (delete i (documents (mongo s)))
                    (advance (DeleteOne "ID" (VInt item_id)) s))
    | None => (Ok false, advance (DeleteOne "ID" (VInt item_id)) s)
    end.
Proof.
  intros H. unfold delete_item. unfold_monad.
  destruct (collection (data_loader s)); [|done].
  rewrite delete_one_answers by done. unfold lookup_ID.
  by destruct (list_find _ _) as [[i d]|].
Qed.
End Connected.

(** With no field set, [update_item] is [get_item_by_id]: the call sits
    inside the [try] but never raises what its handler catches. *)
Lemma update_item_no_fields (item_id : Z) (item_update : SoldierUpdate.t) (s : Sys) :
  SoldierUpdate.model_dump_exclude_unset item_update = ∅ →
  update_item item_id item_update s = get_item_by_id item_id s.
Proof.
  intros Hempty. unfold update_item. unfold mbind at 1. unfold M_bind, get_self.
  destruct (collection (data_loader s)) as [c|] eqn:Hc.
  - rewrite Hempty, bool_decide_eq_true_2 by done.
    destruct (get_item_by_id item_id s) as [[r|e] s'] eqn:E;
      unfold try_except; rewrite E; [done|].
    assert (is_PyMongoError e = false) as He.
    { revert E. unfold get_item_by_id. unfold mbind at 1. unfold M_bind, get_self.
      rewrite Hc. apply try_except_PyMongoError_caught. }
    unfold except_PyMongoError. by rewrite He.
  - by rewrite get_item_by_id_unavailable.
Qed.




(** ** Absent records *)





(** ** Update with no field set *)





(** ** Partial update *)








(** ** Create *)


Lemma insert_one_answers (d : Doc) (s : Sys) :
  answers 1 s = true →
  insert_one d s
  = if unique_ID (mongo s)
       && bool_decide (Exists (λ d' : Doc, d' !! "ID" = d !! "ID") (documents (mongo s)))
    then (Raise (DuplicateKeyError "E11000 duplicate key error collection"),
          advance (InsertOne d) s)
    else (Ok (VObjectId (next_oid (mongo s))), inserted d (advance (InsertOne d) s)).
Proof.
  intros H. unfold insert_one, mbind, M_bind.
  rewrite round_trip_answers by done. unfold get_mongo.
  cbn [advance mongo documents unique_ID].
  by destruct (unique_ID (mongo s) && _).
Qed.













(** ** Connection lifecycle *)




(** *** Which exceptions an operation can raise *)

Section RaisesOnly.
Context {A B : Type} (P : exn → Prop).

Lemma raises_only_ret (a : A) : raises_only P (mret a).
Proof. intros s e s' H. discriminate. Qed.

Lemma raises_only_raise (e : exn) : P e → raises_only P (raise e : M A).
Proof. intros He s e' s' [= <- _]. done. Qed.

Lemma raises_only_bind (m : M A) (k : A → M B) :
  raises_only P m → (∀ a, raises_only P (k a)) → raises_only P (m ≫= k).
Proof.
  intros Hm Hk s e s'. unfold mbind, M_bind.
  destruct (m s) as [[a|e0] s0] eqn:E.
  - apply Hk.
  - intros [= <- _]. by eapply Hm.
Qed.

Lemma raises_only_try_except (Q : exn → Prop) (body : M A) (handlers : exn → option (M A)) :
  raises_only Q body →
  (∀ e h, Q e → handlers e = Some h → raises_only P h) →
  (∀ e, Q e → handlers e = None → P e) →
  raises_only P (try_except body handlers).
Proof.
  intros Hbody Hh Hpass s e s'. unfold try_except.
  destruct (body s) as [[a|e0] s0] eqn:E; [discriminate|].
  apply Hbody in E. destruct (handlers e0) as [h|] eqn:Eh.
  - by eapply Hh.
  - intros [= <- _]. by apply Hpass.
Qed.
End RaisesOnly.

Lemma round_trip_raises (c : Call) : raises_only from_below (round_trip c).
Proof.
  intros s e s'. unfold round_trip.
  destruct (script (mongo s)) as [|[m|] sc]; intros [= <- _] || discriminate.
  by left.
Qed.

Lemma get_mongo_raises : raises_only from_below get_mongo.
Proof. intros s e s'. discriminate. Qed.

Lemma put_mongo_raises (w : Mongo) : raises_only from_below (put_mongo w).
Proof. intros s e s'. discriminate. Qed.

Ltac raises :=
  repeat first
    [ apply raises_only_bind; [|intros ?]
    | apply round_trip_raises
    | apply get_mongo_raises
    | apply put_mongo_raises
    | apply raises_only_ret
    | apply raises_only_raise; first [by left | by right; eexists] ].

Lemma find_all_raises : raises_only from_below find_all.
Proof. unfold find_all. raises. Qed.

Lemma find_one_raises (key : string) (v : Value) : raises_only from_below (find_one key v).
Proof. unfold find_one. raises. Qed.

Lemma insert_one_raises (d : Doc) : raises_only from_below (insert_one d).
Proof. unfold insert_one. raises. destruct (_ && _); raises. Qed.

Lemma find_one_and_update_raises (key : string) (v : Value) (set : Doc) :
  raises_only from_below (find_one_and_update key v set).
Proof.
  unfold find_one_and_update. raises. destruct (list_find _ _) as [[i d]|]; raises.
Qed.

Lemma delete_one_raises (key : string) (v : Value) :
  raises_only from_below (delete_one key v).
Proof.
  unfold delete_one. raises. destruct (list_find _ _) as [[i d]|]; raises.
Qed.

Lemma stringify_id_raises (d : Doc) : raises_only from_below (stringify_id d).
Proof. unfold stringify_id. destruct (d !! "_id"); raises. Qed.

Lemma if_item_stringify_id_raises (item : option Doc) :
  raises_only from_below (if_item_stringify_id item).
Proof.
  unfold if_item_stringify_id. destruct item as [d|]; [|raises].
  case_bool_decide; raises. apply stringify_id_raises.
Qed.

Lemma stringify_ids_raises (cursor : list Doc) :
  raises_only from_below (stringify_ids cursor).
Proof.
  induction cursor as [|d l IH]; cbn [stringify_ids]; raises.
  - apply stringify_id_raises.
  - apply IH.
Qed.



Section Gate.
Variable s : Sys.
Hypothesis handle : collection (data_loader s) ≠ None.






End Gate.




(** * Further properties of the loader and the routes *)

(** ** Composing what operations preserve *)

Global Instance same_loader_refl : Reflexive same_loader.
Proof. by intros s. Qed.

Global Instance same_loader_trans : Transitive same_loader.
Proof. unfold same_loader. intros s1 s2 s3 H1 H2. by rewrite H2. Qed.

Global Instance same_store_refl : Reflexive same_store.
Proof. by intros s. Qed.

Global Instance same_store_trans : Transitive same_store.
Proof.
  unfold same_store. intros s1 s2 s3 (?&?&?) (?&?&?). split_and!; congruence.
Qed.

Global Instance keeps_ids_unique_refl : Reflexive keeps_ids_unique.
Proof. intros s H. exact H. Qed.

Global Instance keeps_ids_unique_trans : Transitive keeps_ids_unique.
Proof. unfold keeps_ids_unique. intros s1 s2 s3 H1 H2 H. auto. Qed.

Global Instance keeps_well_formed_refl : Reflexive keeps_well_formed.
Proof. intros s H. exact H. Qed.

Global Instance keeps_well_formed_trans : Transitive keeps_well_formed.
Proof. unfold keeps_well_formed. intros s1 s2 s3 H1 H2 H. auto. Qed.

Section Preserves.
Context (R : Sys → Sys → Prop) `{!Reflexive R, !Transitive R}.

Lemma preserves_ret {A} (a : A) : preserves R (mret a).
Proof. intros s r s' [= _ <-]. reflexivity. Qed.

Lemma preserves_raise {A} (e : exn) : preserves R (raise e : M A).
Proof. intros s r s' [= _ <-]. reflexivity. Qed.

Lemma preserves_get_self : preserves R get_self.
Proof. intros s r s' [= _ <-]. reflexivity. Qed.

Lemma preserves_get_mongo : preserves R get_mongo.
Proof. intros s r s' [= _ <-]. reflexivity. Qed.

Lemma preserves_bind {A B} (m : M A) (k : A → M B) :
  preserves R m → (∀ a, preserves R (k a)) → preserves R (m ≫= k).
Proof.
  intros Hm Hk s r s'. unfold mbind, M_bind.
  destruct (m s) as [[a|e] s0] eqn:E.
  - intros H. etrans; [by eapply Hm | by eapply Hk].
  - intros [= _ <-]. by eapply Hm.
Qed.

Lemma preserves_try_except {A} (body : M A) (handlers : exn → option (M A)) :
  preserves R body →
  (∀ e h, handlers e = Some h → preserves R h) →
  preserves R (try_except body handlers).
Proof.
  intros Hbody Hh s r s'. unfold try_except.
  destruct (body s) as [[a|e] s0] eqn:E.
  - intros [= _ <-]. by eapply Hbody.
  - destruct (handlers e) as [h|] eqn:Eh.
    + intros H. etrans; [by eapply Hbody | by eapply Hh].
    + intros [= _ <-]. by eapply Hbody.
Qed.

Lemma preserves_except_PyMongoError {A} (e : exn) (h : M A) :
  except_PyMongoError e = Some h → preserves R h.
Proof.
  unfold except_PyMongoError. destruct (is_PyMongoError e); [|discriminate].
  intros [= <-]. apply preserves_raise.
Qed.
End Preserves.

Ltac pres :=
  first
    [ apply preserves_ret
    | apply preserves_raise
    | apply preserves_get_self
    | apply preserves_get_mongo ];
  try typeclasses eauto.

Ltac pbind := apply preserves_bind; [typeclasses eauto .. | | ].

Ltac ptry := apply preserves_try_except; [typeclasses eauto .. | | ].

Ltac pexcept :=
  let e := fresh "e" in let h := fresh "h" in
  intros e h; apply preserves_except_PyMongoError; typeclasses eauto.

(** *** Reads and round trips: any relation that holds between states with
    the same loader and the same store *)

Section Quiet.
Context (R : Sys → Sys → Prop) `{!Reflexive R, !Transitive R}.
Hypothesis quiet_R : ∀ s s', same_loader s s' → same_store s s' → R s s'.

Lemma round_trip_quiet (c : Call) : preserves R (round_trip c).
Proof.
  intros s r s'. unfold round_trip.
  destruct (script (mongo s)) as [|[m|] sc]; intros [= _ <-]; by apply quiet_R.
Qed.

Lemma close_quiet : preserves R close.
Proof. intros s r s' [= _ <-]. by apply quiet_R. Qed.

Lemma find_all_quiet : preserves R find_all.
Proof.
  unfold find_all. pbind; [apply round_trip_quiet | intros _].
  pbind; [pres | intros w]. pres.
Qed.

Lemma find_one_quiet (key : string) (v : Value) : preserves R (find_one key v).
Proof.
  unfold find_one. pbind; [apply round_trip_quiet | intros _].
  pbind; [pres | intros w]. pres.
Qed.

Lemma stringify_id_quiet (d : Doc) : preserves R (stringify_id d).
Proof. unfold stringify_id. destruct (d !! "_id"); pres. Qed.

Lemma if_item_stringify_id_quiet (item : option Doc) :
  preserves R (if_item_stringify_id item).
Proof.
  unfold if_item_stringify_id. destruct item as [d|]; [|pres].
  case_bool_decide; [|pres].
  pbind; [apply stringify_id_quiet | intros d']. pres.
Qed.

Lemma stringify_ids_quiet (cursor : list Doc) : preserves R (stringify_ids cursor).
Proof.
  induction cursor as [|d l IH]; cbn [stringify_ids]; [pres|].
  pbind; [apply stringify_id_quiet | intros d'].
  pbind; [apply IH | intros l']. pres.
Qed.

Lemma get_all_data_quiet : preserves R get_all_data.
Proof.
  unfold get_all_data. pbind; [pres | intros self].
  destruct (collection self); [|pres].
  ptry; [|pexcept].
  pbind; [apply find_all_quiet | intros cursor].
  apply stringify_ids_quiet.
Qed.

Lemma get_item_by_id_quiet (item_id : Z) : preserves R (get_item_by_id item_id).
Proof.
  unfold get_item_by_id. pbind; [pres | intros self].
  destruct (collection self); [|pres].
  ptry; [|pexcept].
  pbind; [apply find_one_quiet | intros item].
  apply if_item_stringify_id_quiet.
Qed.

Lemma disconnect_quiet : preserves R disconnect.
Proof.
  unfold disconnect. pbind; [pres | intros self].
  destruct (client self); [apply close_quiet | pres].
Qed.

Lemma validate_soldier_id_quiet (soldier_id : Z) :
  preserves R (validate_soldier_id soldier_id).
Proof. unfold validate_soldier_id. case_bool_decide; pres. Qed.

Lemma detailed_health_check_quiet : preserves R detailed_health_check.
Proof.
  unfold detailed_health_check. pbind; [pres | intros self].
  case_bool_decide; pres.
Qed.
End Quiet.

Lemma quiet_same_loader (s s' : Sys) : same_loader s s' → same_store s s' → same_loader s s'.
Proof. done. Qed.

Lemma quiet_same_store (s s' : Sys) : same_loader s s' → same_store s s' → same_store s s'.
Proof. done. Qed.

Lemma quiet_keeps_ids_unique (s s' : Sys) :
  same_loader s s' → same_store s s' → keeps_ids_unique s s'.
Proof.
  intros _ (Hd & Hu & _). unfold keeps_ids_unique, ids_unique. by rewrite Hd, Hu.
Qed.

Lemma quiet_keeps_well_formed (s s' : Sys) :
  same_loader s s' → same_store s s' → keeps_well_formed s s'.
Proof.
  intros _ (Hd & _ & Hn). unfold keeps_well_formed, well_formed. by rewrite Hd, Hn.
Qed.

Global Instance keeps_invariants_refl : Reflexive keeps_invariants.
Proof. intros s. split; reflexivity. Qed.

Global Instance keeps_invariants_trans : Transitive keeps_invariants.
Proof. intros s1 s2 s3 [? ?] [? ?]. split; etrans; done. Qed.

Lemma quiet_keeps_invariants (s s' : Sys) :
  same_loader s s' → same_store s s' → keeps_invariants s s'.
Proof.
  intros Hl Hs. split; [by apply quiet_keeps_ids_unique | by apply quiet_keeps_well_formed].
Qed.

(** *** The writes of the driver *)

Lemma script_cases (s : Sys) :
  answers 1 s = true ∨ ∃ msg sc, script (mongo s) = Some msg :: sc.
Proof.
  unfold answers. destruct (script (mongo s)) as [|[m|] sc]; eauto.
Qed.

Lemma forallb_Forall {A} (f : A → bool) (l : list A) :
  forallb f l = true ↔ Forall (λ x, f x = true) l.
Proof.
  induction l as [|x l IH]; cbn; [by split|].
  by rewrite andb_true_iff, Forall_cons, IH.
Qed.

Lemma oid_below_succ (n : N) (d : Doc) :
  oid_below n d = true → oid_below (N.succ n) d = true.
Proof.
  unfold oid_below. destruct (d !! "_id") as [[]|]; try done.
  rewrite !bool_decide_eq_true. lia.
Qed.

Lemma oid_below_patched (n : N) (set d : Doc) :
  set !! "_id" = None → oid_below n (set ∪ d) = oid_below n d.
Proof. intros H. unfold oid_below. by rewrite lookup_union_r. Qed.

Lemma put_mongo_same_loader (w : Mongo) : preserves same_loader (put_mongo w).
Proof. by intros s r s' [= _ <-]. Qed.

Lemma insert_one_same_loader (d : Doc) : preserves same_loader (insert_one d).
Proof.
  unfold insert_one. pbind; [by apply round_trip_quiet | intros _].
  pbind; [pres | intros w]. destruct (_ && _); [pres|].
  pbind; [apply put_mongo_same_loader | intros _]. pres.
Qed.

Lemma find_one_and_update_same_loader (key : string) (v : Value) (set : Doc) :
  preserves same_loader (find_one_and_update key v set).
Proof.
  unfold find_one_and_update. pbind; [by apply round_trip_quiet | intros _].
  pbind; [pres | intros w]. destruct (list_find _ _) as [[i d]|]; [|pres].
  pbind; [apply put_mongo_same_loader | intros _]. pres.
Qed.

Lemma delete_one_same_loader (key : string) (v : Value) :
  preserves same_loader (delete_one key v).
Proof.
  unfold delete_one. pbind; [by apply round_trip_quiet | intros _].
  pbind; [pres | intros w]. destruct (list_find _ _) as [[i d]|]; [|pres].
  pbind; [apply put_mongo_same_loader | intros _]. pres.
Qed.

Lemma insert_one_keeps_invariants (d : Doc) :
  d !! "_id" = None → preserves keeps_invariants (insert_one d).
Proof.
  intros Hd s r s'. destruct (script_cases s) as [Ha | (msg & sc & Hs)].
  - rewrite insert_one_answers by done.
    assert (Hwf : keeps_well_formed s (inserted d (advance (InsertOne d) s))).
    { unfold keeps_well_formed, well_formed.
      cbn [inserted advance mongo documents next_oid].
      rewrite !forallb_Forall, Forall_app, Forall_singleton. intros Hwf. split.
      - eapply Forall_impl; [exact Hwf|]. intros d'. apply oid_below_succ.
      - unfold oid_below. rewrite lookup_insert_eq, bool_decide_eq_true. lia. }
    destruct (unique_ID (mongo s)) eqn:Hu; cbn [andb];
      [case_bool_decide as Hdup|]; intros [= _ <-];
      try (by apply quiet_keeps_invariants); (split; [|exact Hwf]).
    + intros Huniq _. cbn [inserted advance mongo documents].
      rewrite fmap_app, list_fmap_singleton. apply NoDup_app.
      split; [by apply Huniq|]. split; [|apply NoDup_singleton].
      intros x Hx. rewrite list_elem_of_singleton. intros ->.
      apply Hdup. apply list_elem_of_fmap in Hx as (d' & Heq & Hd').
      apply Exists_exists. exists d'. split; [done|].
      by rewrite <- Heq, lookup_insert_ne.
    + intros _ Hu'. cbn [inserted advance mongo unique_ID] in Hu'. congruence.
  - unfold insert_one, mbind, M_bind. rewrite (round_trip_fault _ _ _ _ Hs).
    intros [= _ <-]. by apply quiet_keeps_invariants.
Qed.

Lemma find_one_and_update_keeps_invariants (key : string) (v : Value) (set : Doc) :
  set !! "ID" = None → set !! "_id" = None →
  preserves keeps_invariants (find_one_and_update key v set).
Proof.
  intros HID Hid s r s'. destruct (script_cases s) as [Ha | (msg & sc & Hs)].
  - rewrite find_one_and_update_answers by done.
    destruct (list_find _ _) as [[i d]|] eqn:E; intros [= _ <-];
      [|by apply quiet_keeps_invariants].
    apply list_find_Some in E as (Hi & _ & _). split.
    + unfold keeps_ids_unique, ids_unique.
      cbn [set_documents advance mongo with_documents documents unique_ID].
      rewrite list_fmap_insert, lookup_union_r by done.
      rewrite list_insert_id; [done|]. by rewrite list_lookup_fmap, Hi.
    + unfold keeps_well_formed, well_formed.
      cbn [set_documents advance mongo with_documents documents next_oid].
      rewrite !forallb_Forall. intros Hwf. apply Forall_insert; [done|].
      rewrite oid_below_patched by done.
      by eapply (Forall_lookup_1 _ _ _ _ Hwf).
  - unfold find_one_and_update, mbind, M_bind. rewrite (round_trip_fault _ _ _ _ Hs).
    intros [= _ <-]. by apply quiet_keeps_invariants.
Qed.

Lemma delete_one_keeps_invariants (key : string) (v : Value) :
  preserves keeps_invariants (delete_one key v).
Proof.
  intros s r s'. destruct (script_cases s) as [Ha | (msg & sc & Hs)].
  - rewrite delete_one_answers by done.
    destruct (list_find _ _) as [[i d]|] eqn:E; intros [= _ <-];
      [|by apply quiet_keeps_invariants].
    split.
    + unfold keeps_ids_unique, ids_unique.
      cbn [set_documents advance mongo with_documents documents unique_ID].
      intros Huniq Hu. rewrite list_fmap_delete.
      eapply sublist_NoDup; [by apply Huniq | apply sublist_delete].
    + unfold keeps_well_formed, well_formed.
      cbn [set_documents advance mongo with_documents documents next_oid].
      rewrite !forallb_Forall. apply Forall_delete.
  - unfold delete_one, mbind, M_bind. rewrite (round_trip_fault _ _ _ _ Hs).
    intros [= _ <-]. by apply quiet_keeps_invariants.
Qed.

Lemma create_index_ID_unique_keeps_invariants :
  preserves keeps_invariants create_index_ID_unique.
Proof.
  intros s r s'. unfold create_index_ID_unique, mbind, M_bind.
  destruct (script_cases s) as [Ha | (msg & sc & Hs)].
  - rewrite round_trip_answers by done. unfold get_mongo, put_mongo, raise.
    cbn [advance mongo documents]. case_bool_decide as Hnd; intros [= _ <-].
    + split; [by intros _ _|]. unfold keeps_well_formed, well_formed. done.
    + by apply quiet_keeps_invariants.
  - rewrite (round_trip_fault _ _ _ _ Hs). intros [= _ <-].
    by apply quiet_keeps_invariants.
Qed.

Lemma same_store_keeps_invariants (s s' : Sys) :
  same_store s s' → keeps_invariants s s'.
Proof.
  intros (Hd & Hu & Hn). split.
  - unfold keeps_ids_unique, ids_unique. by rewrite Hd, Hu.
  - unfold keeps_well_formed, well_formed. by rewrite Hd, Hn.
Qed.

Lemma set_client_keeps_invariants (c : option AsyncMongoClient) :
  preserves keeps_invariants (set_client c).
Proof. intros s r s' [= _ <-]. by apply same_store_keeps_invariants. Qed.

Lemma set_db_keeps_invariants (d : option Database) :
  preserves keeps_invariants (set_db d).
Proof. intros s r s' [= _ <-]. by apply same_store_keeps_invariants. Qed.

Lemma set_collection_keeps_invariants (c : option Collection) :
  preserves keeps_invariants (set_collection c).
Proof. intros s r s' [= _ <-]. by apply same_store_keeps_invariants. Qed.

Lemma _setup_indexes_keeps_invariants : preserves keeps_invariants _setup_indexes.
Proof.
  unfold _setup_indexes. pbind; [pres | intros self].
  destruct (collection self); [|pres].
  ptry; [apply create_index_ID_unique_keeps_invariants|].
  intros e h. destruct (is_PyMongoError e); [|discriminate]. intros [= <-]. pres.
Qed.

Lemma connect_keeps_invariants : preserves keeps_invariants connect.
Proof.
  unfold connect. ptry.
  - pbind; [pres | intros self].
    pbind; [apply set_client_keeps_invariants | intros _].
    pbind; [apply round_trip_quiet, quiet_keeps_invariants | intros _].
    pbind; [apply set_db_keeps_invariants | intros _].
    pbind; [apply set_collection_keeps_invariants | intros _].
    apply _setup_indexes_keeps_invariants.
  - intros e h. destruct (is_PyMongoError e); [|discriminate]. intros [= <-].
    pbind; [apply set_client_keeps_invariants | intros _].
    pbind; [apply set_db_keeps_invariants | intros _].
    apply set_collection_keeps_invariants.
Qed.

Lemma create_dump_no__id (item : SoldierCreate.t) :
  SoldierCreate.model_dump item !! "_id" = None.
Proof. unfold SoldierCreate.model_dump. by simplify_map_eq. Qed.

(** *** The operations of the loader *)

Section Writes.
Context (R : Sys → Sys → Prop) `{!Reflexive R, !Transitive R}.
Hypothesis quiet_R : ∀ s s', same_loader s s' → same_store s s' → R s s'.
Hypothesis insert_R : ∀ item, preserves R (insert_one (SoldierCreate.model_dump item)).
Hypothesis update_R : ∀ item_id item_update,
  preserves R (find_one_and_update "ID" (VInt item_id)
                 (SoldierUpdate.model_dump_exclude_unset item_update)).
Hypothesis delete_R : ∀ item_id, preserves R (delete_one "ID" (VInt item_id)).

Lemma create_item_preserves (item : SoldierCreate.t) : preserves R (create_item item).
Proof.
  unfold create_item. pbind; [pres | intros self].
  destruct (collection self); [|pres]. ptry.
  - pbind; [apply insert_R | intros inserted_id].
    pbind; [by apply find_one_quiet | intros created_item].
    by apply if_item_stringify_id_quiet.
  - intros e h. destruct (is_DuplicateKeyError e).
    + intros [= <-]. pres.
    + apply preserves_except_PyMongoError; typeclasses eauto.
Qed.

Lemma update_item_preserves (item_id : Z) (item_update : SoldierUpdate.t) :
  preserves R (update_item item_id item_update).
Proof.
  unfold update_item. pbind; [pres | intros self].
  destruct (collection self); [|pres]. ptry; [|pexcept].
  case_bool_decide; [by apply get_item_by_id_quiet|].
  pbind; [apply update_R | intros result].
  by apply if_item_stringify_id_quiet.
Qed.

Lemma delete_item_preserves (item_id : Z) : preserves R (delete_item item_id).
Proof.
  unfold delete_item. pbind; [pres | intros self].
  destruct (collection self); [|pres]. ptry; [|pexcept].
  pbind; [apply delete_R | intros n]. pres.
Qed.

(** *** The routes *)

Lemma create_soldier_preserves (soldier : SoldierCreate.t) :
  preserves R (create_soldier soldier).
Proof.
  unfold create_soldier. ptry.
  - pbind; [apply create_item_preserves | intros created_soldier]. pres.
  - intros e h.
    destruct (is_ValueError e); [intros [= <-]; pres|].
    destruct (is_RuntimeError e); [intros [= <-]; pres|].
    destruct (is_ValidationError e); intros [= <-]; pres.
Qed.

Lemma read_all_soldiers_preserves : preserves R read_all_soldiers.
Proof.
  unfold read_all_soldiers. ptry.
  - pbind; [by apply get_all_data_quiet | intros soldiers]. pres.
  - intros e h. destruct (is_RuntimeError e); intros [= <-]; pres.
Qed.

Lemma read_soldier_by_id_preserves (soldier_id : Z) :
  preserves R (read_soldier_by_id soldier_id).
Proof.
  unfold read_soldier_by_id.
  pbind; [by apply validate_soldier_id_quiet | intros _]. ptry.
  - pbind; [by apply get_item_by_id_quiet | intros soldier].
    destruct soldier; pres.
  - intros e h.
    destruct (is_HTTPException e); [intros [= <-]; pres|].
    destruct (is_RuntimeError e); intros [= <-]; pres.
Qed.

Lemma update_soldier_preserves (soldier_id : Z) (soldier_update : SoldierUpdate.t) :
  preserves R (update_soldier soldier_id soldier_update).
Proof.
  unfold update_soldier.
  pbind; [by apply validate_soldier_id_quiet | intros _]. ptry.
  - pbind; [apply update_item_preserves | intros updated_soldier].
    destruct updated_soldier; pres.
  - intros e h.
    destruct (is_HTTPException e); [intros [= <-]; pres|].
    destruct (is_ValidationError e); [intros [= <-]; pres|].
    destruct (is_RuntimeError e); intros [= <-]; pres.
Qed.

Lemma delete_soldier_preserves (soldier_id : Z) :
  preserves R (delete_soldier soldier_id).
Proof.
  unfold delete_soldier.
  pbind; [by apply validate_soldier_id_quiet | intros _]. ptry.
  - pbind; [apply delete_item_preserves | intros success].
    destruct (negb success); pres.
  - intros e h.
    destruct (is_HTTPException e); [intros [= <-]; pres|].
    destruct (is_RuntimeError e); intros [= <-]; pres.
Qed.
End Writes.

Ltac close_pres :=
  try typeclasses eauto; try done; try assumption;
  eauto using quiet_same_loader, quiet_same_store, quiet_keeps_invariants.

Lemma preserves_run {A} (R : Sys → Sys → Prop) (m : M A) (s : Sys) :
  preserves R m → R s (run m s).
Proof. intros H. unfold run. destruct (m s) as [r s'] eqn:E. by eapply H. Qed.

(** ** What the operations leave alone *)

(** X1: apart from [connect], nothing assigns the attributes of the loader:
    the five operations, [disconnect], the five routes and the health
    check return it as it was, whatever the state and whatever the server
    answers.  No operation reconnects or drops a handle. *)
Theorem loader_attributes_are_stable (s : Sys) :
  (data_loader (run get_all_data s) = data_loader s
   ∧ (∀ item_id, data_loader (run (get_item_by_id item_id) s) = data_loader s)
   ∧ (∀ item, data_loader (run (create_item item) s) = data_loader s)
   ∧ (∀ item_id item_update,
        data_loader (run (update_item item_id item_update) s) = data_loader s)
   ∧ (∀ item_id, data_loader (run (delete_item item_id) s) = data_loader s)
   ∧ data_loader (run disconnect s) = data_loader s)
  ∧ (data_loader (run read_all_soldiers s) = data_loader s
     ∧ (∀ soldier, data_loader (run (create_soldier soldier) s) = data_loader s)
     ∧ (∀ soldier_id, data_loader (run (read_soldier_by_id soldier_id) s) = data_loader s)
     ∧ (∀ soldier_id soldier_update,
          data_loader (run (update_soldier soldier_id soldier_update) s) = data_loader s)
     ∧ (∀ soldier_id, data_loader (run (delete_soldier soldier_id) s) = data_loader s)
     ∧ data_loader (run detailed_health_check s) = data_loader s).
Proof.
  assert (Hi : ∀ item, preserves same_loader (insert_one (SoldierCreate.model_dump item)))
    by (intros; apply insert_one_same_loader).
  assert (Hu : ∀ item_id item_update,
             preserves same_loader
               (find_one_and_update "ID" (VInt item_id)
                  (SoldierUpdate.model_dump_exclude_unset item_update)))
    by (intros; apply find_one_and_update_same_loader).
  assert (Hd : ∀ item_id, preserves same_loader (delete_one "ID" (VInt item_id)))
    by (intros; apply delete_one_same_loader).
  split; repeat split; intros; apply (preserves_run same_loader).
  - apply get_all_data_quiet; close_pres.
  - apply get_item_by_id_quiet; close_pres.
  - apply create_item_preserves; close_pres.
  - apply update_item_preserves; close_pres.
  - apply delete_item_preserves; close_pres.
  - apply disconnect_quiet; close_pres.
  - apply read_all_soldiers_preserves; close_pres.
  - apply create_soldier_preserves; close_pres.
  - apply read_soldier_by_id_preserves; close_pres.
  - apply update_soldier_preserves; close_pres.
  - apply delete_soldier_preserves; close_pres.
  - apply detailed_health_check_quiet; close_pres.
Qed.

(** X2: reading never writes.  [get_all_data], [get_item_by_id], the two
    read routes, the health check and [disconnect] leave the documents,
    the index and the [ObjectId] counter as they were, in every state and
    also when the server fails. *)
Theorem reads_leave_the_store_alone (s : Sys) :
  same_store s (run get_all_data s)
  ∧ (∀ item_id, same_store s (run (get_item_by_id item_id) s))
  ∧ same_store s (run read_all_soldiers s)
  ∧ (∀ soldier_id, same_store s (run (read_soldier_by_id soldier_id) s))
  ∧ same_store s (run detailed_health_check s)
  ∧ same_store s (run disconnect s).
Proof.
  repeat split; intros; apply (preserves_run same_store).
  all: first
    [ apply get_all_data_quiet; close_pres
    | apply get_item_by_id_quiet; close_pres
    | apply read_all_soldiers_preserves; close_pres
    | apply read_soldier_by_id_preserves; close_pres
    | apply detailed_health_check_quiet; close_pres
    | apply disconnect_quiet; close_pres ].
Qed.

(** ** Invariants of the collection *)

Lemma serve_keeps_invariants (q : Request) (s : Sys) :
  keeps_invariants s (serve q s).
Proof.
  assert (Hi : ∀ item, preserves keeps_invariants (insert_one (SoldierCreate.model_dump item)))
    by (intros; apply insert_one_keeps_invariants, create_dump_no__id).
  assert (Hu : ∀ item_id item_update,
             preserves keeps_invariants
               (find_one_and_update "ID" (VInt item_id)
                  (SoldierUpdate.model_dump_exclude_unset item_update)))
    by (intros; apply find_one_and_update_keeps_invariants;
        [apply update_data_not_ID | apply update_data_not__id]).
  assert (Hd : ∀ item_id, preserves keeps_invariants (delete_one "ID" (VInt item_id)))
    by (intros; apply delete_one_keeps_invariants).
  assert (Hq := quiet_keeps_invariants).
  destruct q; cbn [serve]; apply (preserves_run keeps_invariants).
  - unfold lifespan_startup. ptry; [apply connect_keeps_invariants|].
    intros e h [= <-]. pres.
  - unfold lifespan_shutdown. ptry; [apply disconnect_quiet; close_pres|].
    intros e h [= <-]. pres.
  - apply create_soldier_preserves; close_pres.
  - apply read_all_soldiers_preserves; close_pres.
  - apply read_soldier_by_id_preserves; close_pres.
  - apply update_soldier_preserves; close_pres.
  - apply delete_soldier_preserves; close_pres.
  - apply detailed_health_check_quiet; close_pres.
Qed.

Lemma serve_all_keeps_invariants (qs : list Request) (s : Sys) :
  keeps_invariants s (serve_all qs s).
Proof.
  revert s. induction qs as [|q qs IH]; intros s; [reflexivity|].
  cbn [serve_all foldl]. etrans; [apply (serve_keeps_invariants q)|]. apply IH.
Qed.

(** X3: once the unique index is there, no two stored documents share an
    ["ID"], and requests served one after the other keep it so: startup,
    shutdown and every route, whatever the server answers in between. *)
Theorem requests_keep_ids_unique (qs : list Request) (s : Sys) :
  ids_unique s → ids_unique (serve_all qs s).
Proof. apply serve_all_keeps_invariants. Qed.

Lemma requests_keep_ids_unique_witness :
  ids_unique sys0
  ∧ ids_unique (serve_all requests0 sys0)
  ∧ unique_ID (mongo (serve_all requests0 sys0)) = true
  ∧ length (documents (mongo (serve_all requests0 sys0))) = 1%nat.
Proof.
  assert (H0 : ids_unique sys0) by (intros H; discriminate H).
  split; [exact H0|]. split; [exact (requests_keep_ids_unique requests0 sys0 H0)|].
  split; reflexivity.
Defined.

(** X4: requests served one after the other keep every stored document
    with an [ObjectId] under ["_id"] that the counter has passed, so a
    generated id is never one already in the collection. *)
Theorem requests_keep_well_formed (qs : list Request) (s : Sys) :
  well_formed s = true → well_formed (serve_all qs s) = true.
Proof. apply serve_all_keeps_invariants. Qed.

Lemma requests_keep_well_formed_witness :
  well_formed sys0 = true
  ∧ well_formed (serve_all requests0 sys0) = true
  ∧ next_oid (mongo (serve_all requests0 sys0)) = 1%N.
Proof.
  split; [reflexivity|].
  split; [exact (requests_keep_well_formed requests0 sys0 eq_refl)|]. reflexivity.
Defined.

(** ** Listing *)

Lemma well_formed_has_oid (s : Sys) (d : Doc) :
  well_formed s = true → d ∈ documents (mongo s) →
  ∃ oid, d !! "_id" = Some (VObjectId oid) ∧ (oid < next_oid (mongo s))%N.
Proof.
  unfold well_formed. rewrite forallb_Forall, Forall_forall. intros Hwf Hd.
  specialize (Hwf d Hd). unfold oid_below in Hwf.
  destruct (d !! "_id") as [[| | |oid]|]; try discriminate.
  exists oid. split; [done|]. by apply bool_decide_eq_true in Hwf.
Qed.

Lemma stringify_ids_ok (cursor : list Doc) (s : Sys) :
  Forall (λ d : Doc, is_Some (d !! "_id")) cursor →
  stringify_ids cursor s = (Ok (with_str_id <$> cursor), s).
Proof.
  induction 1 as [|d l [v Hv] _ IH]; [done|].
  cbn [stringify_ids fmap list_fmap]. unfold mbind, M_bind, stringify_id.
  rewrite ?Hv. unfold mret, M_ret. rewrite IH. unfold with_str_id.
  by rewrite Hv.
Qed.

Lemma get_all_data_lists_every_document_aux (s : Sys) :
  collection (data_loader s) ≠ None →
  answers 1 s = true →
  well_formed s = true →
  get_all_data s = (Ok (with_str_id <$> documents (mongo s)), advance Find s)
  ∧ read_all_soldiers s = (Ok (with_str_id <$> documents (mongo s)), advance Find s).
Proof.
  intros Hc Ha Hwf.
  assert (E : get_all_data s = (Ok (with_str_id <$> documents (mongo s)), advance Find s)).
  { unfold get_all_data. unfold mbind at 1. unfold M_bind, get_self.
    destruct (collection (data_loader s)); [|done].
    unfold try_except, mbind, M_bind. rewrite find_all_answers by done.
    rewrite stringify_ids_ok; [done|].
    apply Forall_forall. intros d Hd.
    destruct (well_formed_has_oid s d Hwf Hd) as (oid & -> & _). eauto. }
  split; [exact E|].
  unfold read_all_soldiers, try_except, mbind, M_bind. by rewrite E.
Qed.

(** X5: with the handle held, the server answering and the collection well
    formed, [get_all_data] and [GET /] return every stored document, in
    the order of the collection, each with its ["_id"] turned into the
    string form of its [ObjectId] and every other key as stored. *)
Theorem get_all_data_lists_every_document (s : Sys) :
  collection (data_loader s) ≠ None →
  answers 1 s = true →
  well_formed s = true →
  outcome get_all_data s = Ok (with_str_id <$> documents (mongo s))
  ∧ outcome read_all_soldiers s = Ok (with_str_id <$> documents (mongo s))
  ∧ (∀ (d : Doc) key, key ≠ "_id" → with_str_id d !! key = d !! key)
  ∧ (∀ d : Doc, d ∈ documents (mongo s) →
       ∃ oid, d !! "_id" = Some (VObjectId oid)
              ∧ with_str_id d !! "_id" = Some (VStr (str_ObjectId oid))).
Proof.
  intros Hc Ha Hwf.
  destruct (get_all_data_lists_every_document_aux s Hc Ha Hwf) as (E & E').
  split; [by unfold outcome; rewrite E|].
  split; [by unfold outcome; rewrite E'|].
  split.
  - intros d key Hkey. unfold with_str_id.
    destruct (d !! "_id"); [by rewrite lookup_insert_ne | done].
  - intros d Hd. destruct (well_formed_has_oid s d Hwf Hd) as (oid & Hoid & _).
    exists oid. split; [done|]. unfold with_str_id. rewrite Hoid.
    by rewrite lookup_insert_eq.
Qed.

Lemma get_all_data_lists_every_document_witness :
  (collection (data_loader sys_with7) ≠ None
   ∧ answers 1 sys_with7 = true
   ∧ well_formed sys_with7 = true)
  ∧ outcome read_all_soldiers sys_with7 = Ok [record_of soldier7 0]
  ∧ outcome read_all_soldiers sys_connected = Ok [].
Proof.
  assert (Hc : collection (data_loader sys_with7) ≠ None) by (vm_compute; discriminate).
  split; [by repeat split|].
  destruct (get_all_data_lists_every_document sys_with7 Hc eq_refl eq_refl) as (_ & -> & _).
  assert (Hc' : collection (data_loader sys_connected) ≠ None) by (vm_compute; discriminate).
  destruct (get_all_data_lists_every_document sys_connected Hc' eq_refl eq_refl)
    as (_ & -> & _).
  split; reflexivity.
Defined.

(** ** Faults of the store *)

Section Fault.
Variables (s : Sys) (msg : string) (sc : list (option string)).
Hypothesis handle : collection (data_loader s) ≠ None.
Hypothesis fault : script (mongo s) = Some msg :: sc.




End Fault.



(** ** Create, once more *)






(** ** Delete *)

Lemma unique_ID_delete_absent (item_id : Z) (l : list Doc) (i : nat) (d : Doc) :
  NoDup ((λ d : Doc, d !! "ID") <$> l) →
  l !! i = Some d → d !! "ID" = Some (VInt item_id) →
  list_find (λ d : Doc, d !! "ID" = Some (VInt item_id)) (delete i l) = None.
Proof.
  intros Hnd Hi HID. apply list_find_None, Forall_forall. intros d' Hd' HID'.
  apply list_elem_of_lookup in Hd' as [j Hj].
  assert (∃ j', j' ≠ i ∧ l !! j' = Some d') as (j' & Hne & Hj').
  { destruct (decide (j < i)%nat).
    - exists j. split; [lia|]. by rewrite list_lookup_delete_lt in Hj.
    - exists (S j). split; [lia|]. by rewrite list_lookup_delete_ge in Hj by lia. }
  apply Hne. eapply (NoDup_lookup _ _ _ _ Hnd); rewrite list_lookup_fmap.
  - by rewrite Hj'; cbn; rewrite HID'.
  - by rewrite Hi; cbn; rewrite HID.
Qed.

(** X8: with the handle held and the server answering, [delete_item] on
    an id some document carries returns [True] and removes exactly the
    first such document, the others staying in order; [DELETE /{id}]
    returns.  When the ["ID"]s in the collection are distinct the id is
    gone afterwards, and a second [delete_item] returns [False]. *)
Theorem delete_removes_the_first_match (item_id : Z) (s : Sys) (i : nat) (d : Doc) :
  collection (data_loader s) ≠ None →
  answers 1 s = true →
  lookup_ID item_id s = Some (i, d) →
  outcome (delete_item item_id) s = Ok true
  ∧ documents (mongo (run (delete_item item_id) s)) = delete i (documents (mongo s))
  ∧ S (length (documents (mongo (run (delete_item item_id) s))))
    = length (documents (mongo s))
  ∧ (0 < item_id → outcome (delete_soldier item_id) s = Ok tt)
  ∧ (NoDup ((λ d : Doc, d !! "ID") <$> documents (mongo s)) →
     lookup_ID item_id (run (delete_item item_id) s) = None
     ∧ (answers 2 s = true →
        outcome (delete_item item_id) (run (delete_item item_id) s) = Ok false)).
Proof.
  intros Hc Ha Hfound.
  assert (E := delete_item_answers s Hc item_id Ha). rewrite Hfound in E.
  destruct (lookup_ID_Some _ _ _ _ Hfound) as [Hi HID].
  unfold outcome, run. rewrite E. cbn [fst snd].
  split; [done|]. split; [done|]. split.
  { cbn [set_documents advance mongo with_documents documents].
    rewrite length_delete by eauto.
    apply lookup_lt_Some in Hi. lia. }
  split.
  { intros Hpos. unfold delete_soldier. unfold mbind at 1. unfold M_bind.
    rewrite validate_soldier_id_positive by done.
    unfold try_except, mbind, M_bind. by rewrite E. }
  intros Hnd.
  assert (Habs : lookup_ID item_id
                   (set_documents (delete i (documents (mongo s)))
                      (advance (DeleteOne "ID" (VInt item_id)) s)) = None).
  { unfold lookup_ID. cbn [set_documents advance mongo with_documents documents].
    by eapply unique_ID_delete_absent. }
  split; [done|]. intros Ha2.
  rewrite delete_item_answers; [by rewrite Habs | done |].
  by apply (answers_advance 1 (DeleteOne "ID" (VInt item_id)) s).
Qed.

Lemma delete_removes_the_first_match_witness :
  (collection (data_loader sys_with7) ≠ None
   ∧ answers 1 sys_with7 = true
   ∧ fst <$> lookup_ID 7 sys_with7 = Some 0%nat)
  ∧ outcome (delete_item 7) sys_with7 = Ok true
  ∧ documents (mongo (run (delete_item 7) sys_with7)) = []
  ∧ http_status 204 (outcome (delete_soldier 7) sys_with7) = 204.
Proof.
  assert (Hc : collection (data_loader sys_with7) ≠ None) by (vm_compute; discriminate).
  split; [by repeat split|].
  assert (Hfound : lookup_ID 7 sys_with7
                   = Some (0%nat, <["_id" := VObjectId 0]> (SoldierCreate.model_dump soldier7)))
    by reflexivity.
  destruct (delete_removes_the_first_match 7 sys_with7 _ _ Hc eq_refl Hfound)
    as (H1 & H2 & _ & H4 & _).
  split; [exact H1|]. split; [by rewrite H2|]. by rewrite H4.
Defined.



(** ** Update, once more *)




(** X11: neither [update_item] nor [delete_item] writes when no document
    carries the id: the collection is as before, so an update never
    inserts. *)
Theorem absent_id_is_not_written
    (item_id : Z) (item_update : SoldierUpdate.t) (s : Sys) :
  collection (data_loader s) ≠ None →
  answers 1 s = true →
  lookup_ID item_id s = None →
  documents (mongo (run (update_item item_id item_update) s)) = documents (mongo s)
  ∧ documents (mongo (run (delete_item item_id) s)) = documents (mongo s)
  ∧ lookup_ID item_id (run (update_item item_id item_update) s) = None.
Proof.
  intros Hc Ha Habs.
  assert (Hu : documents (mongo (run (update_item item_id item_update) s))
               = documents (mongo s)).
  { unfold run.
    destruct (decide (SoldierUpdate.model_dump_exclude_unset item_update = ∅)) as [He|He].
    - rewrite update_item_no_fields, get_item_by_id_answers by done. done.
    - rewrite update_item_answers by done. by rewrite Habs. }
  split; [exact Hu|]. split.
  - unfold run. rewrite delete_item_answers by done. by rewrite Habs.
  - unfold lookup_ID in *. by rewrite Hu.
Qed.

Lemma absent_id_is_not_written_witness :
  (collection (data_loader sys_with7) ≠ None
   ∧ answers 1 sys_with7 = true
   ∧ lookup_ID 8 sys_with7 = None)
  ∧ documents (mongo (run (update_item 8 rank_Sgt) sys_with7)) = documents (mongo sys_with7).
Proof.
  assert (Hc : collection (data_loader sys_with7) ≠ None) by (vm_compute; discriminate).
  split; [by repeat split|].
  by destruct (absent_id_is_not_written 8 rank_Sgt sys_with7 Hc eq_refl eq_refl) as (H & _).
Defined.

(** ** IDs that are not positive *)



(** ** The statuses a route can answer with *)

Lemma raises_only_weaken {A} (P Q : exn → Prop) (m : M A) :
  raises_only P m → (∀ e, P e → Q e) → raises_only Q m.
Proof. intros Hm HPQ s e s' E. eapply HPQ, Hm, E. Qed.

Lemma raises_only_get_self (P : exn → Prop) : raises_only P get_self.
Proof. intros s e s'. discriminate. Qed.

Lemma from_below_except (value : bool) (e : exn) (h : M (option Doc)) :
  from_below e → except_PyMongoError e = Some h → raises_only (loader_raises value) h.
Proof.
  intros _. unfold except_PyMongoError. destruct (is_PyMongoError e); [|discriminate].
  intros [= <-]. apply raises_only_raise. left. eauto.
Qed.

Lemma from_below_passes (value : bool) {A} (e : exn) :
  from_below e → @except_PyMongoError A e = None → loader_raises value e.
Proof.
  unfold except_PyMongoError. intros [He | [k ->]].
  - by rewrite He.
  - intros _. right. left. eauto.
Qed.

Lemma closing_clause_raises {A} (value : bool) (body : M A) :
  raises_only from_below body →
  raises_only (loader_raises value) (try_except body except_PyMongoError).
Proof.
  intros Hbody. eapply raises_only_try_except; [exact Hbody|..].
  - intros e h _. unfold except_PyMongoError.
    destruct (is_PyMongoError e); [|discriminate]. intros [= <-].
    apply raises_only_raise. left. eauto.
  - intros e. apply from_below_passes.
Qed.

Lemma gate_raises (value : bool) : loader_raises value (RuntimeError not_available).
Proof. left. eauto. Qed.

Lemma get_all_data_raises : raises_only (loader_raises false) get_all_data.
Proof.
  unfold get_all_data. apply raises_only_bind; [apply raises_only_get_self | intros self].
  destruct (collection self); [|apply raises_only_raise, gate_raises].
  apply closing_clause_raises.
  apply raises_only_bind; [apply find_all_raises | intros cursor].
  apply stringify_ids_raises.
Qed.

Lemma get_item_by_id_raises (item_id : Z) :
  raises_only (loader_raises false) (get_item_by_id item_id).
Proof.
  unfold get_item_by_id. apply raises_only_bind; [apply raises_only_get_self | intros self].
  destruct (collection self); [|apply raises_only_raise, gate_raises].
  apply closing_clause_raises.
  apply raises_only_bind; [apply find_one_raises | intros item].
  apply if_item_stringify_id_raises.
Qed.

Lemma update_item_raises (item_id : Z) (item_update : SoldierUpdate.t) :
  raises_only (loader_raises false) (update_item item_id item_update).
Proof.
  unfold update_item. apply raises_only_bind; [apply raises_only_get_self | intros self].
  destruct (collection self); [|apply raises_only_raise, gate_raises].
  case_bool_decide.
  - eapply raises_only_try_except; [apply get_item_by_id_raises|..].
    + intros e h _. unfold except_PyMongoError.
      destruct (is_PyMongoError e); [|discriminate]. intros [= <-].
      apply raises_only_raise. left. eauto.
    + by intros e He _.
  - apply closing_clause_raises.
    apply raises_only_bind; [apply find_one_and_update_raises | intros result].
    apply if_item_stringify_id_raises.
Qed.

Lemma delete_item_raises (item_id : Z) :
  raises_only (loader_raises false) (delete_item item_id).
Proof.
  unfold delete_item. apply raises_only_bind; [apply raises_only_get_self | intros self].
  destruct (collection self); [|apply raises_only_raise, gate_raises].
  apply closing_clause_raises.
  apply raises_only_bind; [apply delete_one_raises | intros n]. apply raises_only_ret.
Qed.

Lemma create_item_raises (item : SoldierCreate.t) :
  raises_only (loader_raises true) (create_item item).
Proof.
  unfold create_item. apply raises_only_bind; [apply raises_only_get_self | intros self].
  destruct (collection self); [|apply raises_only_raise, gate_raises].
  apply (raises_only_try_except (loader_raises true) from_below).
  - apply raises_only_bind; [apply insert_one_raises | intros inserted_id].
    apply raises_only_bind; [apply find_one_raises | intros created_item].
    apply if_item_stringify_id_raises.
  - intros e h He. destruct (is_DuplicateKeyError e).
    + intros [= <-]. apply raises_only_raise. right. right. eauto.
    + by apply from_below_except.
  - intros e He. destruct (is_DuplicateKeyError e) eqn:Hd; [discriminate|].
    by apply from_below_passes.
Qed.

Lemma raises_only_outcome {A} (codes : list Z) (m : M A) (s : Sys) :
  raises_only (http_in codes) m → answers_with codes (outcome m s).
Proof.
  intros Hm. unfold outcome, answers_with.
  destruct (m s) as [[a|e] s'] eqn:E; [done|]. by eapply Hm.
Qed.

Lemma http_in_raise {A} (codes : list Z) (code : Z) (detail : string) :
  code ∈ codes → raises_only (http_in codes) (raise (HTTPException code detail) : M A).
Proof. intros H. apply raises_only_raise. by exists code, detail. Qed.

Lemma validate_soldier_id_raises (codes : list Z) (soldier_id : Z) :
  422 ∈ codes → raises_only (http_in codes) (validate_soldier_id soldier_id).
Proof.
  intros H. unfold validate_soldier_id. case_bool_decide.
  - by apply http_in_raise.
  - apply raises_only_ret.
Qed.

Ltac in_codes := repeat first [by apply list_elem_of_here | apply list_elem_of_further].

(** X13: no route lets anything but an [HTTPException] out, in any state
    and whatever the server answers, and the status codes are limited:
    [POST /] to 409, 503 and 500; [GET /] to 503 and 500; the three
    id-keyed routes to 422, 404, 503 and 500. *)
Theorem routes_answer_with_known_statuses (s : Sys) :
  (∀ soldier, answers_with [409; 503; 500] (outcome (create_soldier soldier) s))
  ∧ answers_with [503; 500] (outcome read_all_soldiers s)
  ∧ (∀ soldier_id,
       answers_with [422; 404; 503; 500] (outcome (read_soldier_by_id soldier_id) s))
  ∧ (∀ soldier_id soldier_update,
       answers_with [422; 404; 503; 500]
         (outcome (update_soldier soldier_id soldier_update) s))
  ∧ (∀ soldier_id,
       answers_with [422; 404; 503; 500] (outcome (delete_soldier soldier_id) s)).
Proof.
  split; [|split; [|split; [|split]]]; intros; apply raises_only_outcome.
  - unfold create_soldier.
    apply (raises_only_try_except _ (loader_raises true)).
    + apply raises_only_bind; [apply create_item_raises | intros r; apply raises_only_ret].
    + intros e h He.
      destruct He as [[m ->]|[[k ->]|[_ [m ->]]]]; cbn; intros [= <-];
        apply http_in_raise; in_codes.
    + intros e _. by destruct (is_ValueError e), (is_RuntimeError e), (is_ValidationError e).
  - unfold read_all_soldiers.
    apply (raises_only_try_except _ (loader_raises false)).
    + apply raises_only_bind; [apply get_all_data_raises | intros r; apply raises_only_ret].
    + intros e h He.
      destruct (is_RuntimeError e); intros [= <-]; apply http_in_raise; in_codes.
    + intros e _. by destruct (is_RuntimeError e).
  - unfold read_soldier_by_id.
    apply raises_only_bind; [apply validate_soldier_id_raises; in_codes | intros _].
    apply (raises_only_try_except _ (body_raises false true)).
    + apply raises_only_bind.
      * eapply raises_only_weaken; [apply get_item_by_id_raises|]. by left.
      * intros [d|]; [apply raises_only_ret|]. apply raises_only_raise. right. eauto.
    + intros e h He.
      destruct (is_HTTPException e) eqn:Hh.
      * intros [= <-]. apply raises_only_raise.
        destruct He as [[[m ->]|[[k ->]|[? _]]]|[_ [d ->]]]; try discriminate.
        exists 404, d. split; [done|in_codes].
      * destruct (is_RuntimeError e); intros [= <-]; apply http_in_raise; in_codes.
    + intros e _. by destruct (is_HTTPException e), (is_RuntimeError e).
  - unfold update_soldier.
    apply raises_only_bind; [apply validate_soldier_id_raises; in_codes | intros _].
    apply (raises_only_try_except _ (body_raises false true)).
    + apply raises_only_bind.
      * eapply raises_only_weaken; [apply update_item_raises|]. by left.
      * intros [d|]; [apply raises_only_ret|]. apply raises_only_raise. right. eauto.
    + intros e h He.
      destruct (is_HTTPException e) eqn:Hh.
      * intros [= <-]. apply raises_only_raise.
        destruct He as [[[m ->]|[[k ->]|[? _]]]|[_ [d ->]]]; try discriminate.
        exists 404, d. split; [done|in_codes].
      * destruct He as [[[m ->]|[[k ->]|[? _]]]|[_ [d ->]]]; try discriminate;
          cbn; intros [= <-]; apply http_in_raise; in_codes.
    + intros e _.
      by destruct (is_HTTPException e), (is_ValidationError e), (is_RuntimeError e).
  - unfold delete_soldier.
    apply raises_only_bind; [apply validate_soldier_id_raises; in_codes | intros _].
    apply (raises_only_try_except _ (body_raises false true)).
    + apply raises_only_bind.
      * eapply raises_only_weaken; [apply delete_item_raises|]. by left.
      * intros success. destruct (negb success); [|apply raises_only_ret].
        apply raises_only_raise. right. eauto.
    + intros e h He.
      destruct (is_HTTPException e) eqn:Hh.
      * intros [= <-]. apply raises_only_raise.
        destruct He as [[[m ->]|[[k ->]|[? _]]]|[_ [d ->]]]; try discriminate.
        exists 404, d. split; [done|in_codes].
      * destruct (is_RuntimeError e); intros [= <-]; apply http_in_raise; in_codes.
    + intros e _. by destruct (is_HTTPException e), (is_RuntimeError e).
Qed.

(** ** No 500 over a well-formed collection *)


Section WellFormed.
Variable s : Sys.
Hypothesis wf : well_formed s = true.







End WellFormed.



(** ** A failed start *)

Lemma lifespan_startup_ping_fault (s : Sys) (msg : string) (sc : list (option string)) :
  script (mongo s) = Some msg :: sc →
  outcome lifespan_startup s = Ok tt
  ∧ client (data_loader (run lifespan_startup s)) = None
  ∧ db (data_loader (run lifespan_startup s)) = None
  ∧ collection (data_loader (run lifespan_startup s)) = None
  ∧ journal (mongo (run lifespan_startup s)) = (journal (mongo s) ++ [Ping])%list
  ∧ documents (mongo (run lifespan_startup s)) = documents (mongo s).
Proof.
  destruct s as [dl [docs u n scr j]]. cbn [mongo script]. intros ->.
  unfold outcome, run, lifespan_startup, connect, ping, round_trip.
  unfold_monad. cbn. by repeat split.
Qed.

(** X15: when the ping fails at startup the application starts all the
    same: [lifespan] swallows the failure, no handle is kept and nothing
    but the one ping was sent.  From then on every route that reaches the
    loader answers 503 and the health check answers 503, without calling
    the driver again: nothing reconnects. *)
Theorem failed_startup_serves_503
    (s : Sys) (msg : string) (sc : list (option string))
    (soldier : SoldierCreate.t) (soldier_id : Z) (soldier_update : SoldierUpdate.t) :
  script (mongo s) = Some msg :: sc →
  0 < soldier_id →
  (outcome lifespan_startup s = Ok tt
   ∧ collection (data_loader (run lifespan_startup s)) = None
   ∧ journal (mongo (run lifespan_startup s)) = (journal (mongo s) ++ [Ping])%list)
  ∧ (create_soldier soldier (run lifespan_startup s)
     = (Raise (HTTPException 503 not_available), run lifespan_startup s)
     ∧ read_all_soldiers (run lifespan_startup s)
       = (Raise (HTTPException 503 not_available), run lifespan_startup s)
     ∧ read_soldier_by_id soldier_id (run lifespan_startup s)
       = (Raise (HTTPException 503 not_available), run lifespan_startup s)
     ∧ update_soldier soldier_id soldier_update (run lifespan_startup s)
       = (Raise (HTTPException 503 not_available), run lifespan_startup s)
     ∧ delete_soldier soldier_id (run lifespan_startup s)
       = (Raise (HTTPException 503 not_available), run lifespan_startup s)
     ∧ detailed_health_check (run lifespan_startup s)
       = (Raise (HTTPException 503 "Database not available"), run lifespan_startup s)).
Proof.
  intros Hs Hpos.
  destruct (lifespan_startup_ping_fault s msg sc Hs) as (Hok & _ & _ & Hnone & Hj & _).
  split; [done|].
  unfold create_soldier, read_all_soldiers, read_soldier_by_id, update_soldier,
    delete_soldier, detailed_health_check.
  unfold try_except, mbind, M_bind, get_self, raise.
  rewrite !validate_soldier_id_positive by done.
  rewrite create_item_unavailable, get_all_data_unavailable,
    get_item_by_id_unavailable, update_item_unavailable, delete_item_unavailable by done.
  rewrite Hnone. by repeat split.
Qed.

Lemma failed_startup_serves_503_witness :
  (script (mongo (with_script sys0 [Some "server selection timed out"]))
   = [Some "server selection timed out"]
   ∧ 0 < 7)
  ∧ outcome lifespan_startup (with_script sys0 [Some "server selection timed out"]) = Ok tt
  ∧ http_status 200
      (outcome (read_soldier_by_id 7)
         (run lifespan_startup (with_script sys0 [Some "server selection timed out"])))
    = 503.
Proof.
  split; [split; [reflexivity | lia]|].
  destruct (failed_startup_serves_503 (with_script sys0 [Some "server selection timed out"])
              "server selection timed out" [] soldier7 7 no_fields eq_refl)
    as ((Hok & _) & (_ & _ & Hread & _)); [lia|].
  split; [exact Hok|]. unfold outcome. by rewrite Hread.
Defined.
